(** * Horary Master: chart store and chart wheel

    A shallow embedding of two classes of [backend/horary_master_gui.py]:

    - [ChartDatabase], the SQLite-backed chart store ([Module Store]);
    - [ChartWheelCanvas], the widget painting the chart wheel
      ([Module Wheel]);

    and of what the rest of the file does with them: the notebook table and
    its view ([Module Notebook]), the timeline ([Module Timeline]), the
    calculation worker ([Module Worker]) and the filter of the aspects tab
    ([Module AspectsTab]).

    Conventions of the embedding.

    - A Python dict read with [d.get(k, default)] or [d[k]] is a record of
      [option] fields, one per key the code reads: [None] is an absent key.
      [d.get] falls back to its default, a subscript raises [KeyError].
      Values carry the types of the data model (text, integer, flag,
      longitude).
    - Python exceptions are values of [exn]; a function that can raise
      returns [exn + A], and a [try]/[except] is a [match] on that sum.
    - The SQLite table [charts] is its physical column list, its rows in
      rowid order and the AUTOINCREMENT counter.  A [SELECT] or [INSERT]
      naming a column the table lacks raises [OperationalError].
    - Clock readings ([CURRENT_TIMESTAMP], [datetime.now()]) are inputs.
    - Python floats are rationals ([Q]): longitudes, radii and the success
      rate are computed exactly, the rounding of binary floating point is
      not part of the model.  Trigonometry is not evaluated: a point of the
      wheel is kept in polar form. *)

From Stdlib Require Import ZArith QArith String Ascii List Lia.
From Stdlib Require Import Sorted.
From stdpp Require Import base option list strings gmap.

Open Scope string_scope.
Open Scope list_scope.

(** ** Python exceptions *)

Inductive exn : Type :=
| OperationalError   (* sqlite3: the statement names a missing column *)
| OverflowError      (* sqlite3: a Python int beyond 64 bits is bound *)
| JSONDecodeError    (* json.loads on malformed text *)
| KeyError (key : string)
| AttributeError (name : string).   (* an object has no such attribute *)

Definition bind_exn {A B : Type} (m : exn + A) (k : A -> exn + B) : exn + B :=
  match m with
  | inl e => inl e
  | inr a => k a
  end.

Notation "x <~ m ;; k" := (bind_exn m (fun x => k))
  (at level 100, m at next level, right associativity).

(** ** Data model *)

(** One entry of [planets]: the code reads [planet_data['longitude']]. *)
Record planet_data : Type := {
  longitude : option Q
}.

(** One entry of [aspects]: [aspect.get('applying', False)],
    [aspect['planet1']], [aspect['planet2']], [aspect['aspect']]. *)
Record aspect : Type := {
  applying : option bool;
  planet1 : option string;
  planet2 : option string;
  aspect_type : option string
}.

(** The nested chart, [chart_data['chart_data']]: the three keys read with
    [.get].  [planets] keeps the insertion order of the Python dict. *)
Record chart_payload : Type := {
  houses : option (list Q);
  planets : option (list (string * planet_data));
  aspects : option (list aspect)
}.

(** The engine's result dict, as far as the store and the wheel read it. *)
Record result : Type := {
  judgment : option string;
  confidence : option Z;
  chart_data : option chart_payload
}.

(** The empty dict [{}]. *)
Definition empty_result : result :=
  {| judgment := None; confidence := None; chart_data := None |}.

(** A naive [datetime]. *)
Record datetime : Type := {
  year : Z; month : Z; day : Z;
  hour : Z; minute : Z; second : Z; microsecond : Z
}.

(** ** Text of instants *)

Definition digit (n : Z) : ascii := ascii_of_N (48 + Z.to_N (n mod 10)).

(** The [w] low decimal digits of [n], zero padded: [%0wd] for a field that
    fits its width, as every field of a [datetime] does. *)
Fixpoint zpad (w : nat) (n : Z) : string :=
  match w with
  | O => ""
  | S w' => zpad w' (n / 10) +:+ String (digit n) ""
  end.

Definition date_text (d : datetime) : string :=
  zpad 4 (year d) +:+ "-" +:+ zpad 2 (month d) +:+ "-" +:+ zpad 2 (day d).

Definition time_text (d : datetime) : string :=
  zpad 2 (hour d) +:+ ":" +:+ zpad 2 (minute d) +:+ ":" +:+ zpad 2 (second d).

(** SQLite's [CURRENT_TIMESTAMP]: ['YYYY-MM-DD HH:MM:SS']. *)
Definition current_timestamp (now : datetime) : string :=
  date_text now +:+ " " +:+ time_text now.

(** [datetime.isoformat()]: ['YYYY-MM-DDTHH:MM:SS'], followed by
    ['.ffffff'] when the microsecond is not zero. *)
Definition isoformat (d : datetime) : string :=
  date_text d +:+ "T" +:+ time_text d +:+
  (if (microsecond d =? 0)%Z then "" else "." +:+ zpad 6 (microsecond d)).

(** [d.replace(day=1, hour=0, minute=0, second=0, microsecond=0)]. *)
Definition first_of_month (d : datetime) : datetime :=
  {| year := year d; month := month d; day := 1;
     hour := 0; minute := 0; second := 0; microsecond := 0 |}.

(** ** SQL helpers *)

(** Comparison of two cells of a column holding text or NULL, under the
    BINARY collation (bytewise); NULL sorts before every text. *)
Definition cell_leb (a b : option string) : bool :=
  match a, b with
  | None, _ => true
  | Some _, None => false
  | Some x, Some y => String.leb x y
  end.

(** [cell >= bound] and [cell BETWEEN lo AND hi] with text bounds: NULL
    satisfies neither. *)
Definition cell_geb (cell : option string) (bound : string) : bool :=
  match cell with
  | None => false
  | Some x => String.leb bound x
  end.

Definition cell_between (cell : option string) (lo hi : string) : bool :=
  match cell with
  | None => false
  | Some x => String.leb lo x && String.leb x hi
  end.

(** [ORDER BY]: a stable insertion sort along [leb]. *)
Section OrderBy.

Context {A : Type} (leb : A -> A -> bool).

Fixpoint insert_sorted (x : A) (l : list A) : list A :=
  match l with
  | [] => [x]
  | y :: l' => if leb x y then x :: l else y :: insert_sorted x l'
  end.

Fixpoint order_by (l : list A) : list A :=
  match l with
  | [] => []
  | x :: l' => insert_sorted x (order_by l')
  end.

End OrderBy.

(** [LIMIT n]: a negative [n] is no limit. *)
Definition sql_limit {A : Type} (n : Z) (l : list A) : list A :=
  if (n <? 0)%Z then l else take (Z.to_nat n) l.

(** The number of occurrences of [k] among [keys]: [COUNT( * )] over the
    group of [k]. *)
Definition tally {K : Type} `{EqDecision K} (k : K) (keys : list K) : nat :=
  length (filter (fun k' => k' = k) keys).

(** [SELECT k, COUNT( * ) ... GROUP BY k], one pair per distinct key.  The
    callers turn the pairs into a dict, so the order of the groups is
    immaterial. *)
Definition group_by_count {K : Type} `{EqDecision K}
    (keys : list K) : list (K * nat) :=
  (fun k => (k, tally k keys)) <$> remove_dups keys.

(** A Python int is bound as a 64-bit SQLite INTEGER. *)
Definition fits_int64 (z : Z) : bool :=
  ((- 2 ^ 63 <=? z) && (z <? 2 ^ 63))%Z.

Definition bind_int (z : Z) : exn + Z :=
  if fits_int64 z then inr z else inl OverflowError.

(** * ChartDatabase *)

Module Store.

(** ** The [charts] table *)

(** A text cell read back through [json.loads].  Text that is the JSON of a
    value is kept as that value: [json.dumps] writes it and [json.loads]
    returns it.  Any other text makes [json.loads] raise. *)
Inductive json_text (A : Type) : Type :=
| Json (value : A)
| NotJson (text : string).
Arguments Json {A} value.
Arguments NotJson {A} text.

Definition json_dumps {A : Type} (value : A) : json_text A := Json value.

Definition json_loads {A : Type} (text : json_text A) : exn + A :=
  match text with
  | Json value => inr value
  | NotJson _ => inl JSONDecodeError
  end.

(** A row.  [question] and [location] are [TEXT NOT NULL]; the other cells
    may be NULL ([None]).  A field whose column the table lacks is never
    read: every statement names its columns and fails on a missing one. *)
Record chart_row : Type := {
  row_id : Z;
  row_question : string;
  row_location : string;
  row_timestamp : option string;
  row_judgment : option string;
  row_confidence : option Z;
  row_chart_data : option (json_text result);
  row_notes : option string;
  row_tags : option (json_text (list string));
  row_category : option string
}.

Record database : Type := {
  columns : list string;      (* PRAGMA table_info(charts), the names *)
  charts : list chart_row;    (* in rowid order *)
  sequence : Z                (* sqlite_sequence: the largest id ever given *)
}.

(** The columns of [CREATE TABLE IF NOT EXISTS charts] in [init_database]. *)
Definition current_columns : list string :=
  ["id"; "question"; "location"; "timestamp"; "judgment"; "confidence";
   "chart_data"; "notes"; "tags"; "category"].

(** [init_database]: the table is created only where there is none; an
    existing table keeps its columns and rows. *)
Definition init_database (existing : option database) : database :=
  match existing with
  | Some db => db
  | None => {| columns := current_columns; charts := []; sequence := 0 |}
  end.

Definition table_info (db : database) : list string := columns db.

Definition has_column (db : database) (c : string) : bool :=
  bool_decide (c ∈ table_info db).

(** Preparing a statement over [cols]. *)
Definition prepare (db : database) (cols : list string) : exn + unit :=
  if forallb (has_column db) cols then inr tt else inl OperationalError.

Definition max_rowid (rows : list chart_row) : Z :=
  foldr Z.max 0%Z (row_id <$> rows).

(** The largest id the table ever held. *)
Definition last_id (db : database) : Z :=
  Z.max (sequence db) (max_rowid (charts db)).

(** An AUTOINCREMENT id is one more than the largest ever used; once the
    largest 64-bit id has been used the insert fails (SQLITE_FULL). *)
Definition next_id (db : database) : exn + Z :=
  if (last_id db <? 2 ^ 63 - 1)%Z then inr (1 + last_id db)%Z
  else inl OperationalError.

(** [INSERT INTO charts (question, location, judgment, confidence,
    chart_data, notes, tags, category) VALUES (?, ...)]: the timestamp
    defaults to [CURRENT_TIMESTAMP].  Returns the new state and
    [cursor.lastrowid]. *)
Definition insert_chart (db : database) (now : datetime)
    (question location judgment : string) (confidence : Z)
    (chart_data : json_text result) (notes : string)
    (tags : json_text (list string)) (category : string)
    : exn + (database * Z) :=
  _ <~ prepare db ["question"; "location"; "judgment"; "confidence";
                   "chart_data"; "notes"; "tags"; "category"] ;;
  confidence' <~ bind_int confidence ;;
  chart_id <~ next_id db ;;
  let row := {| row_id := chart_id;
                row_question := question;
                row_location := location;
                row_timestamp := Some (current_timestamp now);
                row_judgment := Some judgment;
                row_confidence := Some confidence';
                row_chart_data := Some chart_data;
                row_notes := Some notes;
                row_tags := Some tags;
                row_category := Some category |} in
  inr ({| columns := columns db;
          charts := charts db ++ [row];
          sequence := chart_id |}, chart_id).

(** ** Records handed to the callers *)

(** The dict of [get_chart]. *)
Record chart_record : Type := {
  rec_id : Z;
  rec_question : string;
  rec_location : string;
  rec_timestamp : option string;
  rec_judgment : option string;
  rec_confidence : option Z;
  rec_chart_data : result;
  rec_notes : option string;
  rec_tags : list string;
  rec_category : option string
}.

(** The dicts of [get_recent_charts] (with [tags]) and of
    [get_charts_by_date_range] (without). *)
Record chart_summary : Type := {
  sum_id : Z;
  sum_question : string;
  sum_location : string;
  sum_timestamp : option string;
  sum_judgment : option string;
  sum_confidence : option Z;
  sum_category : option string;
  sum_tags : option (list string)
}.

(** The dict of [get_statistics]. *)
Record statistics : Type := {
  total_charts : nat;
  this_month : nat;
  success_rate : Q;
  categories : gmap (option string) nat;
  total_judgments : nat
}.

Definition failed_statistics : statistics :=
  {| total_charts := 0; this_month := 0; success_rate := 0;
     categories := ∅; total_judgments := 0 |}.

(** [json.loads(cell) if cell else empty]: NULL and the empty text are
    falsy. *)
Definition loads_cell {A : Type} (empty : A) (cell : option (json_text A))
    : exn + A :=
  match cell with
  | None | Some (NotJson "") => inr empty
  | Some text => json_loads text
  end.

(** ** save_chart *)

Definition save_chart (db : database) (now : datetime)
    (question location : string) (res : result)
    (notes : string) (tags : option (list string)) (category : string)
    : exn + (database * Z) :=
  let chart_data' := json_dumps res in
  let judgment' := default "UNKNOWN" (judgment res) in
  let confidence' := default 0%Z (confidence res) in
  let tags_str :=
    match tags with
    | Some (t :: ts) => json_dumps (t :: ts)
    | _ => Json []
    end in
  insert_chart db now question location judgment' confidence'
               chart_data' notes tags_str category.

(** ** get_recent_charts *)

Definition recent_row (with_category : bool) (row : chart_row)
    : exn + chart_summary :=
  tags <~ loads_cell [] (row_tags row) ;;
  inr {| sum_id := row_id row;
         sum_question := row_question row;
         sum_location := row_location row;
         sum_timestamp := row_timestamp row;
         sum_judgment := row_judgment row;
         sum_confidence := row_confidence row;
         sum_category :=
           if with_category then row_category row else Some "general";
         sum_tags := Some tags |}.

Fixpoint for_rows {A B : Type} (f : A -> exn + B) (rows : list A)
    : exn + list B :=
  match rows with
  | [] => inr []
  | row :: rest =>
      x <~ f row ;;
      xs <~ for_rows f rest ;;
      inr (x :: xs)
  end.

Definition newest_first (a b : chart_row) : bool :=
  cell_leb (row_timestamp b) (row_timestamp a).

Definition oldest_first (a b : chart_row) : bool :=
  cell_leb (row_timestamp a) (row_timestamp b).

(** The body of the [try]. *)
Definition get_recent_charts_try (db : database) (limit : Z)
    : exn + list chart_summary :=
  let with_category := has_column db "category" in
  _ <~ prepare db (["id"; "question"; "location"; "timestamp"; "judgment";
                    "confidence"] ++
                   (if with_category then ["category"] else []) ++
                   ["tags"]) ;;
  limit' <~ bind_int limit ;;
  for_rows (recent_row with_category)
           (sql_limit limit' (order_by newest_first (charts db))).

Definition get_recent_charts (db : database) (limit : Z)
    : list chart_summary :=
  match get_recent_charts_try db limit with
  | inr found => found
  | inl _ => []
  end.

(** ** get_chart *)

(** The inner [try]: both cells decode, or both fall back. *)
Definition decode_cells (row : chart_row) : result * list string :=
  match (chart_data' <~ loads_cell empty_result (row_chart_data row) ;;
         tags <~ loads_cell [] (row_tags row) ;;
         inr (chart_data', tags)) with
  | inr cells => cells
  | inl _ => (empty_result, [])
  end.

Definition get_chart_try (db : database) (chart_id : Z)
    : exn + option chart_record :=
  let with_category := has_column db "category" in
  _ <~ prepare db (["question"; "location"; "timestamp"; "judgment";
                    "confidence"; "chart_data"; "notes"; "tags"] ++
                   (if with_category then ["category"] else []) ++
                   ["id"]) ;;
  chart_id' <~ bind_int chart_id ;;
  match head (filter (fun row => row_id row = chart_id') (charts db)) with
  | Some row =>
      let cells := decode_cells row in
      inr (Some {| rec_id := chart_id;
                   rec_question := row_question row;
                   rec_location := row_location row;
                   rec_timestamp := row_timestamp row;
                   rec_judgment := row_judgment row;
                   rec_confidence := row_confidence row;
                   rec_chart_data := cells.1;
                   rec_notes := row_notes row;
                   rec_tags := cells.2;
                   rec_category :=
                     if with_category then row_category row
                     else Some "general" |})
  | None => inr None
  end.

Definition get_chart (db : database) (chart_id : Z) : option chart_record :=
  match get_chart_try db chart_id with
  | inr found => found
  | inl _ => None
  end.

(** ** get_charts_by_date_range *)

Definition ranged_row (with_category : bool) (row : chart_row)
    : chart_summary :=
  {| sum_id := row_id row;
     sum_question := row_question row;
     sum_location := row_location row;
     sum_timestamp := row_timestamp row;
     sum_judgment := row_judgment row;
     sum_confidence := row_confidence row;
     sum_category :=
       if with_category then row_category row else Some "general";
     sum_tags := None |}.

(** [WHERE timestamp BETWEEN ? AND ?] with the two [isoformat()] texts. *)
Definition in_range (start_date end_date : datetime) (row : chart_row)
    : bool :=
  cell_between (row_timestamp row)
               (isoformat start_date) (isoformat end_date).

Definition get_charts_by_date_range_try (db : database)
    (start_date end_date : datetime) : exn + list chart_summary :=
  let with_category := has_column db "category" in
  _ <~ prepare db (["id"; "question"; "location"; "timestamp"; "judgment";
                    "confidence"] ++
                   (if with_category then ["category"] else [])) ;;
  inr (ranged_row with_category <$>
       order_by oldest_first
         (filter (fun row => in_range start_date end_date row = true)
                 (charts db))).

Definition get_charts_by_date_range (db : database)
    (start_date end_date : datetime) : list chart_summary :=
  match get_charts_by_date_range_try db start_date end_date with
  | inr found => found
  | inl _ => []
  end.

(** ** get_statistics *)

(** [WHERE judgment IN ("YES", "NO")]: the judgment of a row that passes. *)
Definition yes_or_no (row : chart_row) : option string :=
  match row_judgment row with
  | Some j => if bool_decide (j = "YES" \/ j = "NO") then Some j else None
  | None => None
  end.

Definition get_statistics_try (db : database) (now : datetime)
    : exn + statistics :=
  let total_charts' := length (charts db) in
  _ <~ prepare db ["timestamp"] ;;
  let this_month' :=
    length (filter (fun row => cell_geb (row_timestamp row)
                                 (isoformat (first_of_month now)) = true)
                   (charts db)) in
  _ <~ prepare db ["judgment"] ;;
  let judgment_counts : gmap string nat :=
    list_to_map (group_by_count (omap yes_or_no (charts db))) in
  let total_judgments' :=
    map_fold (fun _ count acc => count + acc) 0 judgment_counts in
  let yes_count := default 0 (judgment_counts !! "YES") in
  let success_rate' :=
    if (0 <? total_judgments')%nat
    then (inject_Z (Z.of_nat yes_count)
          / inject_Z (Z.of_nat total_judgments') * 100)%Q
    else 0%Q in
  let categories' : gmap (option string) nat :=
    if has_column db "category"
    then list_to_map (group_by_count (row_category <$> charts db))
    else if (0 <? total_charts')%nat
         then {[ Some "general" := total_charts' ]}
         else ∅ in
  inr {| total_charts := total_charts';
         this_month := this_month';
         success_rate := success_rate';
         categories := categories';
         total_judgments := total_judgments' |}.

Definition get_statistics (db : database) (now : datetime) : statistics :=
  match get_statistics_try db now with
  | inr stats => stats
  | inl _ => failed_statistics
  end.

End Store.

(** * ChartWheelCanvas *)

Module Wheel.

(** ** What reaches the painter *)

(** A point of the widget: the centre of its rectangle, or the point at
    [radius] from the centre in the direction of [degrees], that is
    [(center.x() + radius * cos(radians(degrees)),
      center.y() + radius * sin(radians(degrees)))]. *)
Inductive point : Type :=
| Center
| Polar (radius degrees : Q).

(** [self.rect()], or [QRect(x + dx, y + dy, w, h)] around a point. *)
Inductive rect : Type :=
| WidgetRect
| Box (anchor : point) (dx dy w h : Z).

Inductive brush : Type :=
| NoBrush                                   (* QBrush() *)
| Solid (color : string)                    (* QBrush(QColor(c)) *)
| Lighter (color : string) (factor : Z).    (* QColor(c).lighter(f) *)

Inductive pen_style : Type := SolidLine | DashLine.

(** What is written: a literal, [str(i + 1)], or the longitude formatted by
    ['{longitude:.1f}'] and followed by the degree sign. *)
Inductive label : Type :=
| Literal (s : string)
| HouseNumber (n : nat)
| Degrees (lon : Q).

(** One call the [QPainter] carries out.  [drawCircle] is not among them:
    see [drawCircle] below. *)
Inductive paint_op : Type :=
| SetRenderHint
| SetPen (color : string) (width : Z) (style : pen_style)
| SetBrush (b : brush)
| SetFont (family : string) (size : Z) (bold : bool)
| DrawLine (p1 p2 : point)
| DrawEllipse (box : rect)
| DrawText (box : rect) (text : label).

(** Calls are compared field by field. *)
#[global] Instance Q_eq_dec : EqDecision Q.
Proof. solve_decision. Defined.
#[global] Instance point_eq_dec : EqDecision point.
Proof. solve_decision. Defined.
#[global] Instance rect_eq_dec : EqDecision rect.
Proof. solve_decision. Defined.
#[global] Instance brush_eq_dec : EqDecision brush.
Proof. solve_decision. Defined.
#[global] Instance pen_style_eq_dec : EqDecision pen_style.
Proof. solve_decision. Defined.
#[global] Instance label_eq_dec : EqDecision label.
Proof. solve_decision. Defined.
#[global] Instance paint_op_eq_dec : EqDecision paint_op.
Proof. solve_decision. Defined.

(** The calls made so far, and the exception that stopped them, if any. *)
Definition painting : Type := list paint_op * option exn.

Definition emit (ops : list paint_op) : painting := (ops, None).

Definition raise (e : exn) : painting := ([], Some e).

Definition and_then (p q : painting) : painting :=
  match p with
  | (ops, Some e) => (ops, Some e)
  | (ops, None) => (ops ++ q.1, q.2)
  end.

Infix ">>" := and_then (at level 65, right associativity).

(** [d[key]]. *)
Definition subscript {A : Type} (key : string) (field : option A)
    (k : A -> painting) : painting :=
  match field with
  | Some v => k v
  | None => raise (KeyError key)
  end.

(** [painter.drawCircle(center, radius)].  [QPainter] has no method of
    that name (it draws circles with [drawEllipse], as [draw_planets]
    does): looking the attribute up raises [AttributeError], before an
    argument is read and before anything is drawn. *)
Definition drawCircle (radius : Q) : painting :=
  raise (AttributeError "drawCircle").

(** [try: body except Exception: handler]: what [body] painted before it
    raised stays painted, and [handler] goes on from there. *)
Definition try_except (body handler : painting) : painting :=
  match body with
  | (ops, None) => (ops, None)
  | (ops, Some _) => emit ops >> handler
  end.

(** ** The widget *)

(** [self]: the dict last given to [set_chart_data], if any, and the size
    of the widget ([self.width()], [self.height()]). *)
Record canvas : Type := {
  self_chart_data : option result;
  self_width : Z;
  self_height : Z
}.

(** [__init__]: [self.chart_data = None]. *)
Definition init (width height : Z) : canvas :=
  {| self_chart_data := None; self_width := width; self_height := height |}.

Definition set_chart_data (self : canvas) (chart_data' : result) : canvas :=
  {| self_chart_data := Some chart_data';
     self_width := self_width self;
     self_height := self_height self |}.

(** [self.chart_data['chart_data']], where there is one. *)
Definition payload_of (self : canvas) : option chart_payload :=
  self_chart_data self ≫= chart_data.

(** ** draw_placeholder *)

Definition caption : string :=
  "Chart Wheel" +:+ String (ascii_of_nat 10) "(Awaiting Chart Data)".

Definition draw_placeholder (self : canvas) : painting :=
  let radius := (Z.min (self_width self) (self_height self) / 2 - 20)%Z in
  emit [ SetPen "#ccc" 2 SolidLine ] >>
  drawCircle (inject_Z radius) >>
  emit [ SetPen "#999" 1 SolidLine;
         SetFont "Arial" 12 false;
         DrawText WidgetRect (Literal caption) ].

(** ** draw_zodiac_wheel *)

Definition signs : list (string * string * string) :=
  [ ("♈", "Aries", "#ff6b6b");       ("♉", "Taurus", "#4ecdc4");
    ("♊", "Gemini", "#45b7d1");      ("♋", "Cancer", "#96ceb4");
    ("♌", "Leo", "#feca57");         ("♍", "Virgo", "#48dbfb");
    ("♎", "Libra", "#ff9ff3");       ("♏", "Scorpio", "#54a0ff");
    ("♐", "Sagittarius", "#5f27cd"); ("♑", "Capricorn", "#00d2d3");
    ("♒", "Aquarius", "#ff9f43");    ("♓", "Pisces", "#a55eea") ].

Definition draw_sign (outer_radius inner_radius : Q) (i : nat)
    (sign : string * string * string) : list paint_op :=
  let '(glyph, _, color) := sign in
  let start_angle := inject_Z (Z.of_nat i * 30 - 90) in
  let text_angle := (start_angle + 15)%Q in
  let text_radius := ((outer_radius + inner_radius) / 2)%Q in
  [ SetPen color 1 SolidLine;
    SetBrush (Lighter color 190);
    DrawLine (Polar inner_radius start_angle) (Polar outer_radius start_angle);
    SetPen "#333" 2 SolidLine;
    SetFont "Arial" 16 true;
    DrawText (Box (Polar text_radius text_angle) (-15) (-15) 30 30)
             (Literal glyph) ].

Definition draw_zodiac_wheel (outer_radius inner_radius : Q) : painting :=
  emit (concat (imap (draw_sign outer_radius inner_radius) signs)) >>
  emit [ SetPen "#333" 2 SolidLine;
         SetBrush NoBrush ] >>
  drawCircle outer_radius >>
  drawCircle inner_radius.

(** ** draw_house_cusps *)

Definition draw_cusp (radius : Q) (i : nat) (cusp : Q) : list paint_op :=
  let angle := (cusp - 90)%Q in
  let number_radius := (radius * 0.9)%Q in
  [ DrawLine Center (Polar radius angle);
    SetFont "Arial" 10 true;
    SetPen "#333" 1 SolidLine;
    DrawText (Box (Polar number_radius (angle + 15)%Q) (-10) (-10) 20 20)
             (HouseNumber (i + 1)) ].

Definition draw_house_cusps (radius : Q) (houses : list Q) : list paint_op :=
  SetPen "#666" 2 SolidLine :: concat (imap (draw_cusp radius) houses).

(** ** draw_planets *)

Definition planet_glyphs (name : string) : option string :=
  if String.eqb name "Sun" then Some "☉"
  else if String.eqb name "Moon" then Some "☽"
  else if String.eqb name "Mercury" then Some "☿"
  else if String.eqb name "Venus" then Some "♀"
  else if String.eqb name "Mars" then Some "♂"
  else if String.eqb name "Jupiter" then Some "♃"
  else if String.eqb name "Saturn" then Some "♄"
  else None.

Definition planet_colors (name : string) : option string :=
  if String.eqb name "Sun" then Some "#ff6b35"
  else if String.eqb name "Moon" then Some "#a8dadc"
  else if String.eqb name "Mercury" then Some "#457b9d"
  else if String.eqb name "Venus" then Some "#e63946"
  else if String.eqb name "Mars" then Some "#f77f00"
  else if String.eqb name "Jupiter" then Some "#fcbf49"
  else if String.eqb name "Saturn" then Some "#003566"
  else None.

Definition draw_planet (radius : Q) (entry : string * planet_data)
    : painting :=
  let '(planet_name, data) := entry in
  match planet_glyphs planet_name with
  | Some glyph =>
      subscript "longitude" (longitude data) (fun lon =>
        let angle := (lon - 90)%Q in
        let color := default "#333333" (planet_colors planet_name) in
        emit [ SetPen color 2 SolidLine;
               SetBrush (Lighter color 180);
               DrawEllipse (Box (Polar radius angle) (-12) (-12) 24 24);
               SetPen color 1 SolidLine;
               DrawText (Box (Polar radius angle) (-12) (-12) 24 24)
                        (Literal glyph);
               SetFont "Arial" 8 false;
               DrawText (Box (Polar (radius + 25)%Q angle) (-20) (-10) 40 20)
                        (Degrees lon);
               SetFont "Arial" 14 true ])
  | None => emit []
  end.

Fixpoint for_each {A : Type} (body : A -> painting) (l : list A) : painting :=
  match l with
  | [] => emit []
  | x :: rest => body x >> for_each body rest
  end.

Definition draw_planets (radius : Q) (planets : list (string * planet_data))
    : painting :=
  emit [ SetFont "Arial" 14 true ] >> for_each (draw_planet radius) planets.

(** ** draw_aspects *)

Definition aspect_colors (aspect_type : string) : option string :=
  if String.eqb aspect_type "Conjunction" then Some "#333333"
  else if String.eqb aspect_type "Sextile" then Some "#4CAF50"
  else if String.eqb aspect_type "Square" then Some "#f44336"
  else if String.eqb aspect_type "Trine" then Some "#2196F3"
  else if String.eqb aspect_type "Opposition" then Some "#ff9800"
  else None.

(** [planets[name]] and [name in planets]. *)
Fixpoint planet_lookup (planets : list (string * planet_data))
    (name : string) : option planet_data :=
  match planets with
  | [] => None
  | (n, data) :: rest =>
      if String.eqb n name then Some data else planet_lookup rest name
  end.

(** The chord of an aspect between two planets of known longitude. *)
Definition chord (radius : Q) (aspect_type : string) (lon1 lon2 : Q)
    : list paint_op :=
  let angle1 := (lon1 - 90)%Q in
  let angle2 := (lon2 - 90)%Q in
  let color := default "#333333" (aspect_colors aspect_type) in
  [ SetPen color 1 DashLine;
    DrawLine (Polar radius angle1) (Polar radius angle2) ].

(** One turn of the loop over [aspects]. *)
Definition draw_aspect (radius : Q) (planets : list (string * planet_data))
    (a : aspect) : painting :=
  if negb (default false (applying a)) then emit []
  else
    subscript "planet1" (planet1 a) (fun planet1_name =>
    subscript "planet2" (planet2 a) (fun planet2_name =>
    subscript "aspect" (aspect_type a) (fun aspect_type' =>
      match planet_lookup planets planet1_name,
            planet_lookup planets planet2_name with
      | Some data1, Some data2 =>
          subscript "longitude" (longitude data1) (fun lon1 =>
          subscript "longitude" (longitude data2) (fun lon2 =>
            emit (chord radius aspect_type' lon1 lon2)))
      | _, _ => emit []
      end))).

Definition draw_aspects (radius : Q) (aspects : list aspect)
    (planets : list (string * planet_data)) : painting :=
  for_each (draw_aspect radius planets) aspects.

(** ** draw_chart_wheel *)

Definition when_nonempty {A : Type} (l : list A) (p : painting) : painting :=
  match l with
  | [] => emit []
  | _ :: _ => p
  end.

Definition draw_chart_wheel (self : canvas) : painting :=
  let outer_radius :=
    inject_Z (Z.min (self_width self) (self_height self) / 2 - 30) in
  let house_radius := (outer_radius * 0.75)%Q in
  let planet_radius := (outer_radius * 0.85)%Q in
  emit [ SetPen "#f0f0f0" 1 SolidLine;
         SetBrush (Solid "#fafafa") ] >>
  drawCircle outer_radius >>
  draw_zodiac_wheel outer_radius house_radius >>
  subscript "chart_data" (payload_of self) (fun payload =>
    let chart_houses := default [] (houses payload) in
    let chart_planets := default [] (planets payload) in
    let chart_aspects := default [] (aspects payload) in
    when_nonempty chart_houses
      (emit (draw_house_cusps house_radius chart_houses)) >>
    when_nonempty chart_planets
      (draw_planets planet_radius chart_planets) >>
    when_nonempty chart_aspects
      (draw_aspects (planet_radius * 0.7)%Q chart_aspects chart_planets)).

(** ** paintEvent *)

(** The guard [not self.chart_data or 'chart_data' not in self.chart_data]
    holds when there is no dict or the dict has no ['chart_data'] key (an
    empty dict has none).  An exception of [draw_chart_wheel] is caught, and
    [draw_placeholder] is called after what was painted before it; an
    exception of [draw_placeholder] is caught by nothing and leaves
    [paintEvent]. *)
Definition paintEvent (self : canvas) : painting :=
  emit [ SetRenderHint ] >>
  match payload_of self with
  | None => draw_placeholder self
  | Some _ => try_except (draw_chart_wheel self) (draw_placeholder self)
  end.

End Wheel.

Import Store Wheel.

(** * Vocabulary of the statements *)

(** A table the [INSERT] of [save_chart] can extend: it has the columns of
    the current schema and an id to give. *)
Definition accepts_charts (db : database) : bool :=
  forallb (has_column db) current_columns && (last_id db <? 2 ^ 63 - 1)%Z.

(** The table of an earlier version: every current column but [category]. *)
Definition legacy_columns : list string :=
  ["id"; "question"; "location"; "timestamp"; "judgment"; "confidence";
   "chart_data"; "notes"; "tags"].

(** The number of charts judged exactly [j]. *)
Definition count_judgment (j : string) (db : database) : nat :=
  length (filter (fun row => row_judgment row = Some j) (charts db)).

(** [YES / (YES + NO) * 100], and 0 when nothing was judged YES or NO. *)
Definition yes_share (yes no : nat) : Q :=
  if (0 <? yes + no)%nat
  then (inject_Z (Z.of_nat yes) / inject_Z (Z.of_nat (yes + no)) * 100)%Q
  else 0%Q.

(** A call that puts something on the widget (a line, an ellipse, a text),
    as opposed to one that sets the pen, the brush, the font or the
    hint. *)
Definition draws (op : paint_op) : bool :=
  match op with
  | DrawLine _ _ | DrawEllipse _ | DrawText _ _ => true
  | _ => false
  end.

(** The row [save_chart] writes. *)
Definition saved_row (chart_id : Z) (now : datetime)
    (question location : string) (res : result) (notes : string)
    (tags : option (list string)) (category : string) : chart_row :=
  {| row_id := chart_id;
     row_question := question;
     row_location := location;
     row_timestamp := Some (current_timestamp now);
     row_judgment := Some (default "UNKNOWN" (judgment res));
     row_confidence := Some (default 0%Z (confidence res));
     row_chart_data := Some (Json res);
     row_notes := Some notes;
     row_tags := Some (Json (default [] tags));
     row_category := Some category |}.

(** ** Sample inputs *)

Definition fresh : database := init_database None.

Definition noon : datetime :=
  {| year := 2025; month := 6; day := 6;
     hour := 12; minute := 0; second := 0; microsecond := 0 |}.

(** [datetime.combine(day, datetime.min.time())] and
    [datetime.combine(day, datetime.max.time())] for the day of [noon]. *)
Definition midnight : datetime :=
  {| year := 2025; month := 6; day := 6;
     hour := 0; minute := 0; second := 0; microsecond := 0 |}.

Definition last_instant : datetime :=
  {| year := 2025; month := 6; day := 6;
     hour := 23; minute := 59; second := 59; microsecond := 999999 |}.

Definition yes_82 : result :=
  {| judgment := Some "YES"; confidence := Some 82%Z; chart_data := None |}.

(** The store after one [save_chart] at [noon]. *)
Definition saved_at_noon : database :=
  match save_chart fresh noon "Will I get the job?" "London, England"
                   yes_82 "" None "general" with
  | inr (db, _) => db
  | inl _ => fresh
  end.

Definition legacy : database :=
  {| columns := legacy_columns;
     charts := [ {| row_id := 1;
                    row_question := "Will I get the job?";
                    row_location := "London, England";
                    row_timestamp := Some "2024-01-15 09:30:00";
                    row_judgment := Some "YES";
                    row_confidence := Some 82%Z;
                    row_chart_data := None;
                    row_notes := None;
                    row_tags := None;
                    row_category := None |} ];
     sequence := 1 |}.

(** One chart judged YES, one NO, one UNCLEAR. *)
Definition three_charts : database :=
  {| columns := current_columns;
     charts :=
       (fun '(i, j) =>
          {| row_id := i;
             row_question := "Will I get the job?";
             row_location := "London, England";
             row_timestamp := Some "2025-06-06 12:00:00";
             row_judgment := Some j;
             row_confidence := Some 82%Z;
             row_chart_data := None;
             row_notes := None;
             row_tags := None;
             row_category := Some "general" |})
       <$> [ (1%Z, "YES"); (2%Z, "NO"); (3%Z, "UNCLEAR") ];
     sequence := 3 |}.

Definition sun_moon : list (string * planet_data) :=
  [ ("Sun", {| longitude := Some 95.4%Q |});
    ("Moon", {| longitude := Some 10%Q |}) ].

Definition applying_square : aspect :=
  {| applying := Some true; planet1 := Some "Sun"; planet2 := Some "Moon";
     aspect_type := Some "Square" |}.

Definition separating_trine : aspect :=
  {| applying := Some false; planet1 := Some "Sun"; planet2 := Some "Moon";
     aspect_type := Some "Trine" |}.

Definition dangling_square : aspect :=
  {| applying := Some true; planet1 := Some "Sun"; planet2 := Some "Pluto";
     aspect_type := Some "Square" |}.

(** * Further code of the file *)

(** ** Vocabulary *)

(** A row whose timestamp is the [CURRENT_TIMESTAMP] of the instant [t],
    as every row written by [save_chart] is. *)
Definition stamped (row : chart_row) (t : datetime) : Prop :=
  row_timestamp row = Some (current_timestamp t).

(** The ids of a table are pairwise distinct, and the counter is not
    behind them. *)
Definition ids_in_order (db : database) : Prop :=
  NoDup (row_id <$> charts db) /\ (max_rowid (charts db) <= sequence db)%Z.

(** The direction of a ray from the centre, and the number written by a
    house label. *)
Definition ray_angle (op : paint_op) : option Q :=
  match op with
  | DrawLine Center (Polar _ degrees) => Some degrees
  | _ => None
  end.

Definition house_label (op : paint_op) : option nat :=
  match op with
  | DrawText _ (HouseNumber n) => Some n
  | _ => None
  end.

(** The planets [draw_planets] has a glyph for. *)
Definition recognized (entry : string * planet_data) : Prop :=
  is_Some (planet_glyphs entry.1).

(** An aspect dict with the three keys [draw_aspects] subscripts. *)
Definition has_aspect_keys (a : aspect) : Prop :=
  is_Some (planet1 a) /\ is_Some (planet2 a) /\ is_Some (aspect_type a).

(** * The notebook *)

Module Notebook.

(** ** The [notebook_entries] table *)

(** A row: [title] is [TEXT NOT NULL], the other cells may be NULL.  The
    reference to a chart is not enforced (SQLite checks foreign keys only
    on request, and the code does not ask). *)
Record entry_row : Type := {
  entry_id : Z;
  entry_title : string;
  entry_content : option string;
  entry_category : option string;
  entry_tags : option (json_text (list string));
  entry_created_date : option string;
  entry_modified_date : option string;
  entry_chart_id : option Z
}.

Record table : Type := {
  entries : list entry_row;   (* in rowid order *)
  entry_sequence : Z          (* sqlite_sequence: the largest id ever given *)
}.

Definition last_entry_id (nb : table) : Z :=
  Z.max (entry_sequence nb) (foldr Z.max 0%Z (entry_id <$> entries nb)).

Definition next_entry_id (nb : table) : exn + Z :=
  if (last_entry_id nb <? 2 ^ 63 - 1)%Z then inr (1 + last_entry_id nb)%Z
  else inl OperationalError.

(** An [Optional[int]] parameter: [None] is bound as NULL. *)
Definition bind_optional_int (z : option Z) : exn + option Z :=
  match z with
  | None => inr None
  | Some z => z' <~ bind_int z ;; inr (Some z')
  end.

(** The dict of [get_notebook_entries]. *)
Record entry : Type := {
  note_id : Z;
  note_title : string;
  note_content : option string;
  note_category : option string;
  note_tags : list string;
  note_created_date : option string;
  note_modified_date : option string;
  note_chart_id : option Z
}.

(** ** save_notebook_entry *)

Definition save_notebook_entry (nb : table) (now : datetime)
    (title content category : string) (tags : option (list string))
    (chart_id : option Z) : exn + (table * Z) :=
  let tags_str :=
    match tags with
    | Some (t :: ts) => json_dumps (t :: ts)
    | _ => Json []
    end in
  let now' := isoformat now in
  chart_id' <~ bind_optional_int chart_id ;;
  new_id <~ next_entry_id nb ;;
  let row := {| entry_id := new_id;
                entry_title := title;
                entry_content := Some content;
                entry_category := Some category;
                entry_tags := Some tags_str;
                entry_created_date := Some now';
                entry_modified_date := Some now';
                entry_chart_id := chart_id' |} in
  inr ({| entries := entries nb ++ [row]; entry_sequence := new_id |}, new_id).

(** ** get_notebook_entries *)

Definition entry_of_row (row : entry_row) : exn + entry :=
  tags <~ loads_cell [] (entry_tags row) ;;
  inr {| note_id := entry_id row;
         note_title := entry_title row;
         note_content := entry_content row;
         note_category := entry_category row;
         note_tags := tags;
         note_created_date := entry_created_date row;
         note_modified_date := entry_modified_date row;
         note_chart_id := entry_chart_id row |}.

Definition last_modified_first (a b : entry_row) : bool :=
  cell_leb (entry_modified_date b) (entry_modified_date a).

(** [if category:] holds for a text that is not empty. *)
Definition category_filter (category : option string) : option string :=
  match category with
  | Some c => if bool_decide (c = EmptyString) then None else Some c
  | None => None
  end.

(** There is no [try]: a [json.loads] that raises reaches the caller. *)
Definition get_notebook_entries (nb : table) (category : option string)
    : exn + list entry :=
  let selected :=
    match category_filter category with
    | Some c => filter (fun row => entry_category row = Some c) (entries nb)
    | None => entries nb
    end in
  for_rows entry_of_row (order_by last_modified_first selected).

(** ** NotebookView *)

(** What the view can raise besides the store's exceptions: [.title()] on a
    NULL category and a slice of a NULL date, both in
    [load_notebook_entries]. *)
Inductive view_exn : Type :=
| StoreError (e : exn)
| AttributeError
| TypeError.

(** The message box a handler ends on. *)
Inductive dialog : Type :=
| NoDialog
| ValidationWarning
| SuccessDialog
| ErrorDialog (failure : view_exn).

(** A [QListWidget]: its items (an item carries its entry; its text and
    tooltip derive from it) and [selectedItems()]. *)
Record list_widget : Type := {
  widget_items : list entry;
  selected_items : list entry
}.

(** [self.current_entry_id] and [self.entry_list]. *)
Record view : Type := {
  current_entry_id : option Z;
  entry_list : list_widget
}.

(** [if self.current_entry_id:]: an id that is neither [None] nor 0. *)
Definition selected_id (v : view) : option Z :=
  match current_entry_id v with
  | Some i => if (i =? 0)%Z then None else Some i
  | None => None
  end.

(** [clear_editor], as far as the state goes. *)
Definition clear_editor (v : view) : view :=
  {| current_entry_id := None; entry_list := entry_list v |}.

(** [load_selected_entry], the slot of [entry_list.itemSelectionChanged],
    as far as the state goes: with nothing selected it clears the editor,
    otherwise the entry of the first selected item becomes the current one
    (the dict of an item has its eight keys, so [if not entry_data] never
    holds). *)
Definition load_selected_entry (v : view) : view :=
  match selected_items (entry_list v) with
  | [] => clear_editor v
  | entry_data :: _ =>
      {| current_entry_id := Some (note_id entry_data);
         entry_list := entry_list v |}
  end.

(** [self.entry_list.clear()]: the selection is emptied first, and where
    there was one [itemSelectionChanged] is sent and
    [load_selected_entry] runs on the emptied selection; then the items
    go. *)
Definition clear_list (v : view) : view :=
  let deselected :=
    {| current_entry_id := current_entry_id v;
       entry_list := {| widget_items := widget_items (entry_list v);
                        selected_items := [] |} |} in
  let signalled :=
    match selected_items (entry_list v) with
    | [] => deselected
    | _ :: _ => load_selected_entry deselected
    end in
  {| current_entry_id := current_entry_id signalled;
     entry_list := {| widget_items := []; selected_items := [] |} |}.

(** The loop of [load_notebook_entries]: the tooltip reads
    [entry['category'].title()], then [entry['created_date'][:10]]; the
    items added before an exception stay in the list. *)
Fixpoint add_items (found : list entry) : list entry * option view_exn :=
  match found with
  | [] => ([], None)
  | e :: rest =>
      match note_category e, note_created_date e with
      | None, _ => ([], Some AttributeError)
      | Some _, None => ([], Some TypeError)
      | Some _, Some _ =>
          let '(items, failure) := add_items rest in (e :: items, failure)
      end
  end.

Section Builtins.

(** [str.strip], [str.lower] and [s.split(",")]. *)
Variable strip : string -> string.
Variable lower : string -> string.
Variable split_commas : string -> list string.

(** [load_notebook_entries]: the entries are fetched before the list is
    cleared, so an exception of [get_notebook_entries] leaves the view as
    it was; clearing the list can clear [current_entry_id] (see
    [clear_list]); the items added afterwards are not selected. *)
Definition load_notebook_entries (nb : table) (v : view)
    (category_filter_text : string) : view * option view_exn :=
  let filter_category :=
    if bool_decide (category_filter_text = "All") then None
    else Some (lower category_filter_text) in
  match get_notebook_entries nb filter_category with
  | inl e => (v, Some (StoreError e))
  | inr found =>
      let cleared := clear_list v in
      let '(items, failure) := add_items found in
      ({| current_entry_id := current_entry_id cleared;
          entry_list := {| widget_items := items; selected_items := [] |} |},
       failure)
  end.

(** [[tag.strip() for tag in tags_text.split(",") if tag.strip()] if
    tags_text else []] over the stripped text of the field. *)
Definition parse_tags (tags_edit : string) : list string :=
  let tags_text := strip tags_edit in
  if bool_decide (tags_text = EmptyString) then []
  else filter (fun tag => tag <> EmptyString) (strip <$> split_commas tags_text).

(** The [UPDATE notebook_entries SET ... WHERE id = ?] of [save_entry]. *)
Definition update_entry (nb : table) (now : datetime) (id : Z)
    (title content category : string) (tags : list string) : exn + table :=
  id' <~ bind_int id ;;
  inr {| entries :=
           (fun row =>
              if bool_decide (entry_id row = id')
              then {| entry_id := entry_id row;
                      entry_title := title;
                      entry_content := Some content;
                      entry_category := Some category;
                      entry_tags := Some (json_dumps tags);
                      entry_created_date := entry_created_date row;
                      entry_modified_date := Some (isoformat now);
                      entry_chart_id := entry_chart_id row |}
              else row) <$> entries nb;
         entry_sequence := entry_sequence nb |}.

(** [save_entry]: the title is checked before anything is written; the
    write, the new [current_entry_id] and the reload of the list are under
    one [try].  The reload comes after the commit, and what it does to
    [current_entry_id] stays done. *)
Definition save_entry (nb : table) (v : view) (now : datetime)
    (title_edit content_edit entry_category_text tags_edit : string)
    (category_filter_text : string) : table * view * dialog :=
  let title := strip title_edit in
  if bool_decide (title = EmptyString) then (nb, v, ValidationWarning)
  else
    let content := content_edit in
    let category := lower entry_category_text in
    let tags := parse_tags tags_edit in
    let written :=
      match selected_id v with
      | Some id =>
          nb' <~ update_entry nb now id title content category tags ;;
          inr (nb', v)
      | None =>
          saved <~ save_notebook_entry nb now title content category
                                       (Some tags) None ;;
          inr (saved.1, {| current_entry_id := Some saved.2;
                           entry_list := entry_list v |})
      end in
    match written with
    | inl e => (nb, v, ErrorDialog (StoreError e))
    | inr (nb', v') =>
        match load_notebook_entries nb' v' category_filter_text with
        | (v'', Some failure) => (nb', v'', ErrorDialog failure)
        | (v'', None) => (nb', v'', SuccessDialog)
        end
    end.

(** The [DELETE FROM notebook_entries WHERE id = ?] of [delete_entry]. *)
Definition delete_row (nb : table) (id : Z) : exn + table :=
  id' <~ bind_int id ;;
  inr {| entries := filter (fun row => entry_id row <> id') (entries nb);
         entry_sequence := entry_sequence nb |}.

(** [delete_entry]; [confirmed] is the answer to the question box. *)
Definition delete_entry (nb : table) (v : view) (confirmed : bool)
    (category_filter_text : string) : table * view * dialog :=
  match selected_id v with
  | None => (nb, v, NoDialog)
  | Some id =>
      if confirmed then
        match delete_row nb id with
        | inl e => (nb, v, ErrorDialog (StoreError e))
        | inr nb' =>
            match load_notebook_entries nb' (clear_editor v)
                                        category_filter_text with
            | (v', Some failure) => (nb', v', ErrorDialog failure)
            | (v', None) => (nb', v', SuccessDialog)
            end
        end
      else (nb, v, NoDialog)
  end.

End Builtins.

(** ** SettingsDialog.clear_charts *)

(** [DELETE FROM charts] and [DELETE FROM notebook_entries]; the rows go,
    the columns and the AUTOINCREMENT counters stay. *)
Definition clear_charts (db : database) (nb : table) (confirmed : bool)
    : database * table :=
  if confirmed
  then ({| columns := columns db; charts := []; sequence := sequence db |},
        {| entries := []; entry_sequence := entry_sequence nb |})
  else (db, nb).

End Notebook.

(** * The timeline *)

Module Timeline.

(** A [datetime.date]. *)
Record date : Type := { date_year : Z; date_month : Z; date_day : Z }.

(** [datetime.combine(d, datetime.min.time())] and
    [datetime.combine(d, datetime.max.time())]. *)
Definition combine_min (d : date) : datetime :=
  {| year := date_year d; month := date_month d; day := date_day d;
     hour := 0; minute := 0; second := 0; microsecond := 0 |}.

Definition combine_max (d : date) : datetime :=
  {| year := date_year d; month := date_month d; day := date_day d;
     hour := 23; minute := 59; second := 59; microsecond := 999999 |}.

(** [on_date_selected]: the charts put in the list, one item each (an item
    carries the id of its chart, its text derives from the chart). *)
Definition on_date_selected (db : database) (selected_date : date)
    : list chart_summary :=
  get_charts_by_date_range db (combine_min selected_date)
                           (combine_max selected_date).

(** The four labels of [update_timeline_stats], before they are turned
    into text. *)
Record period_stats : Type := {
  total : nat;
  yes_count : nat;
  no_count : nat;
  avg_confidence : Q
}.

Definition update_timeline_stats (charts : list chart_summary)
    : period_stats :=
  let total' := length charts in
  let yes_count' :=
    length (filter (fun c => sum_judgment c = Some "YES") charts) in
  let no_count' :=
    length (filter (fun c => sum_judgment c = Some "NO") charts) in
  let confidences := omap sum_confidence charts in
  let avg_confidence' :=
    match confidences with
    | [] => 0%Q
    | _ :: _ => (inject_Z (foldr Z.add 0%Z confidences)
                 / inject_Z (Z.of_nat (length confidences)))%Q
    end in
  {| total := total'; yes_count := yes_count'; no_count := no_count';
     avg_confidence := avg_confidence' |}.

End Timeline.

(** * The calculation worker *)

Module Worker.

(** [settings], as far as [calculate_chart] reads it. *)
Record settings : Type := { settings_location : option string }.

(** What [self.engine.judge(question, settings)] does: it raises (with the
    text of the exception), returns something that is no dict, or returns
    a dict. *)
Inductive engine_reply : Type :=
| Raised (message : string)
| NotADict
| Returned (res : result).

(** The three signals of the worker. *)
Inductive signal : Type :=
| calculation_progress (message : string)
| calculation_finished (res : result)
| calculation_error (message : string).

Definition failed (message : string) : list signal :=
  [ calculation_error ("Calculation failed: " +:+ message) ].

Section Builtins.

(** [str.strip]. *)
Variable strip : string -> string.

(** [engine] is [self.engine]; [engine_error] is the text of
    [HORARY_ENGINE_ERROR] in the message. *)
Definition calculate_chart
    (engine : option (string -> settings -> engine_reply))
    (engine_error : string) (question : string) (s : settings)
    : list signal :=
  calculation_progress "Initializing calculation..." ::
  match engine with
  | None => failed ("Horary engine not available: " +:+ engine_error)
  | Some judge =>
      calculation_progress "Validating inputs..." ::
      if bool_decide (strip question = EmptyString)
      then failed "Question cannot be empty"
      else if bool_decide
                (strip (default EmptyString (settings_location s))
                 = EmptyString)
      then failed "Location cannot be empty"
      else
        calculation_progress "Calculating chart..." ::
        match judge question s with
        | Raised message => failed message
        | NotADict =>
            calculation_progress "Processing results..." ::
            failed "Invalid result format from engine"
        | Returned res =>
            calculation_progress "Processing results..." ::
            match judgment res with
            | None => failed "Missing judgment in result"
            | Some _ =>
                [ calculation_progress "Calculation complete!";
                  calculation_finished res ]
            end
        end
  end.

End Builtins.

End Worker.

(** * The aspects tab *)

Module AspectsTab.

(** An aspect dict as the tab reads it: the keys the wheel reads, and
    ['degrees_to_exact']. *)
Record aspect_entry : Type := {
  on_wheel : aspect;
  degrees_to_exact : option Q
}.

(** [x < y] on numbers. *)
Definition less_than (x y : Q) : bool := negb (Qle_bool y x).

(** [filter_aspects_list], by the text of the combo box. *)
Definition filter_aspects_list (filter_text : string)
    (aspects : list aspect_entry) : list aspect_entry :=
  if bool_decide (filter_text = "All Aspects") then aspects
  else if bool_decide (filter_text = "Applying Only")
  then filter (fun a => default false (applying (on_wheel a)) = true) aspects
  else if bool_decide (filter_text = "Separating Only")
  then filter (fun a => default false (applying (on_wheel a)) = false) aspects
  else if bool_decide (filter_text = "Exact Aspects")
  then filter (fun a => less_than (default 10%Q (degrees_to_exact a)) 1 = true)
              aspects
  else aspects.

(** The significance column of [update_aspects_tab]. *)
Definition significance (a : aspect_entry) : string :=
  let d := default 0%Q (degrees_to_exact a) in
  if less_than d 1 then "Very Strong"
  else if less_than d 3 then "Strong"
  else if less_than d 6 then "Moderate"
  else "Weak".

End AspectsTab.

(** * Further sample inputs *)

(** The row of [saved_at_noon]. *)
Definition noon_row : chart_row :=
  saved_row 1 noon "Will I get the job?" "London, England" yes_82
            EmptyString None "general".

(** The evening before [noon], and the first of that month at noon. *)
Definition eve : datetime :=
  {| year := 2025; month := 6; day := 5;
     hour := 22; minute := 30; second := 0; microsecond := 0 |}.


Definition june_6 : Timeline.date :=
  {| Timeline.date_year := 2025; Timeline.date_month := 6;
     Timeline.date_day := 6 |}.


(** A row whose [tags] cell is valid JSON and whose [chart_data] cell is
    not, and a table holding it after a sound row. *)
Definition damaged_row : chart_row :=
  {| row_id := 2;
     row_question := "Will it rain?";
     row_location := "Paris";
     row_timestamp := Some "2025-06-07 08:00:00";
     row_judgment := Some "NO";
     row_confidence := Some 40%Z;
     row_chart_data := Some (NotJson "{oops");
     row_notes := None;
     row_tags := Some (Json ["weather"]);
     row_category := Some "general" |}.

Definition bad_tags_row : chart_row :=
  {| row_id := 3;
     row_question := "Will it snow?";
     row_location := "Oslo";
     row_timestamp := Some "2025-06-08 08:00:00";
     row_judgment := Some "YES";
     row_confidence := Some 60%Z;
     row_chart_data := None;
     row_notes := None;
     row_tags := Some (NotJson "weather");
     row_category := Some "general" |}.

Definition damaged : database :=
  {| columns := current_columns;
     charts := [noon_row; damaged_row; bad_tags_row];
     sequence := 3 |}.

(** An entry of the notebook whose [tags] cell decodes. *)
Definition decodable (row : Notebook.entry_row) : Prop :=
  exists tags, loads_cell [] (Notebook.entry_tags row) = inr tags.

(** The dict [get_notebook_entries] builds from an entry that
    [save_notebook_entry] wrote. *)
Definition saved_entry (id : Z) (now : datetime)
    (title content category : string) (tags : option (list string))
    (chart_id : option Z) : Notebook.entry :=
  {| Notebook.note_id := id;
     Notebook.note_title := title;
     Notebook.note_content := Some content;
     Notebook.note_category := Some category;
     Notebook.note_tags := default [] tags;
     Notebook.note_created_date := Some (isoformat now);
     Notebook.note_modified_date := Some (isoformat now);
     Notebook.note_chart_id := chart_id |}.

(** A notebook of two entries, and one with a third whose tags are not
    JSON. *)
Definition first_note : Notebook.entry_row :=
  {| Notebook.entry_id := 1;
     Notebook.entry_title := "Moon void of course";
     Notebook.entry_content := Some "Nothing comes of the matter.";
     Notebook.entry_category := Some "technique";
     Notebook.entry_tags := Some (Json ["moon"]);
     Notebook.entry_created_date := Some "2025-06-01T10:00:00";
     Notebook.entry_modified_date := Some "2025-06-01T10:00:00";
     Notebook.entry_chart_id := None |}.

Definition second_note : Notebook.entry_row :=
  {| Notebook.entry_id := 2;
     Notebook.entry_title := "Job question";
     Notebook.entry_content := Some "Lord 10 applies to lord 1.";
     Notebook.entry_category := Some "case";
     Notebook.entry_tags := None;
     Notebook.entry_created_date := Some "2025-06-02T10:00:00";
     Notebook.entry_modified_date := Some "2025-06-03T09:00:00";
     Notebook.entry_chart_id := Some 1%Z |}.

Definition torn_note : Notebook.entry_row :=
  {| Notebook.entry_id := 3;
     Notebook.entry_title := "Imported";
     Notebook.entry_content := None;
     Notebook.entry_category := Some "case";
     Notebook.entry_tags := Some (NotJson "moon, job");
     Notebook.entry_created_date := Some "2025-06-04T10:00:00";
     Notebook.entry_modified_date := Some "2025-06-04T10:00:00";
     Notebook.entry_chart_id := None |}.

Definition two_notes : Notebook.table :=
  {| Notebook.entries := [first_note; second_note];
     Notebook.entry_sequence := 2 |}.

Definition torn_notebook : Notebook.table :=
  {| Notebook.entries := [first_note; second_note; torn_note];
     Notebook.entry_sequence := 3 |}.

(** Ids of the notebook not above its counter. *)
Definition entry_ids_in_order (nb : Notebook.table) : Prop :=
  (foldr Z.max 0%Z (Notebook.entry_id <$> Notebook.entries nb)
   <= Notebook.entry_sequence nb)%Z.

(** An edited row beside the row it was: the id, the creation date and the
    chart reference are kept; the row with the id [id] carries the new
    title and modification date, any other row is as it was. *)
Definition edited_from (id : Z) (title : string) (now : datetime)
    (old new : Notebook.entry_row) : Prop :=
  Notebook.entry_id new = Notebook.entry_id old /\
  Notebook.entry_created_date new = Notebook.entry_created_date old /\
  Notebook.entry_chart_id new = Notebook.entry_chart_id old /\
  (Notebook.entry_id old <> id -> new = old) /\
  (Notebook.entry_id old = id ->
   Notebook.entry_title new = title /\
   Notebook.entry_modified_date new = Some (isoformat now)).

(** The view with an empty list, and the view after a click on the item of
    the second note: the item is selected and its entry is the current
    one. *)
Definition blank_view : Notebook.view :=
  {| Notebook.current_entry_id := None;
     Notebook.entry_list := {| Notebook.widget_items := [];
                               Notebook.selected_items := [] |} |}.

Definition second_entry : Notebook.entry :=
  {| Notebook.note_id := 2;
     Notebook.note_title := "Job question";
     Notebook.note_content := Some "Lord 10 applies to lord 1.";
     Notebook.note_category := Some "case";
     Notebook.note_tags := [];
     Notebook.note_created_date := Some "2025-06-02T10:00:00";
     Notebook.note_modified_date := Some "2025-06-03T09:00:00";
     Notebook.note_chart_id := Some 1%Z |}.

Definition second_selected : Notebook.view :=
  {| Notebook.current_entry_id := Some 2%Z;
     Notebook.entry_list := {| Notebook.widget_items := [second_entry];
                               Notebook.selected_items := [second_entry] |} |}.

(** Stand-ins for [str.strip], [str.lower] and [s.split(",")] on texts
    without blanks, capitals or commas. *)
Definition as_is (s : string) : string := s.
Definition unsplit (s : string) : list string := [s].

(** A signal that reports progress, as opposed to one that ends the
    calculation. *)
Definition is_progress (s : Worker.signal) : bool :=
  match s with
  | Worker.calculation_progress _ => true
  | _ => false
  end.

(** An engine that answers every question with [yes_82], and settings with
    a location. *)
Definition always_yes (question : string) (s : Worker.settings)
    : Worker.engine_reply :=
  Worker.Returned yes_82.

Definition in_london : Worker.settings :=
  {| Worker.settings_location := Some "London, England" |}.

(** Three aspects as the tab lists them: an applying one half a degree from
    exact, a separating one, and an applying one without
    ['degrees_to_exact']. *)
Definition listed_aspects : list AspectsTab.aspect_entry :=
  [ {| AspectsTab.on_wheel := applying_square;
       AspectsTab.degrees_to_exact := Some 0.5%Q |};
    {| AspectsTab.on_wheel := separating_trine;
       AspectsTab.degrees_to_exact := Some 4%Q |};
    {| AspectsTab.on_wheel := applying_square;
       AspectsTab.degrees_to_exact := None |} ].

(** ** Tactics *)

(** Membership in a literal list of column names. *)
Ltac column_listed :=
  apply (bool_decide_unpack _); vm_compute; exact I.

(** A goal about every column [c] of a literal list [Hc : c ∈ [...]]. *)
Ltac for_columns Hc :=
  repeat (apply elem_of_cons in Hc as [-> | Hc]);
  try (apply elem_of_nil in Hc; contradiction).

(** * The store: inserting and reading back *)

Lemma prepare_ok (db : database) (cols : list string) :
  (forall c, c ∈ cols -> has_column db c = true) -> prepare db cols = inr tt.
Proof.
  intros Hcols. unfold prepare.
  replace (forallb (has_column db) cols) with true; [reflexivity|].
  symmetry. apply forallb_forall. intros c Hc.
  apply Hcols, list_elem_of_In, Hc.
Qed.

Lemma prepare_missing (db : database) (cols : list string) (c : string) :
  c ∈ cols -> has_column db c = false -> prepare db cols = inl OperationalError.
Proof.
  intros Hc Hmiss. unfold prepare.
  destruct (forallb (has_column db) cols) eqn:Hall; [|reflexivity].
  rewrite forallb_forall in Hall.
  rewrite (Hall c) in Hmiss; [discriminate|].
  apply list_elem_of_In, Hc.
Qed.

Lemma accepts_charts_column (db : database) (c : string) :
  accepts_charts db = true -> c ∈ current_columns -> has_column db c = true.
Proof.
  unfold accepts_charts. intros Hacc Hc.
  apply andb_prop in Hacc as [Hcols _].
  rewrite forallb_forall in Hcols.
  apply Hcols, list_elem_of_In, Hc.
Qed.

Lemma accepts_charts_room (db : database) :
  accepts_charts db = true -> (last_id db < 2 ^ 63 - 1)%Z.
Proof.
  unfold accepts_charts. intros Hacc.
  apply andb_prop in Hacc as [_ Hroom]. lia.
Qed.

Lemma max_rowid_nonneg (rows : list chart_row) : (0 <= max_rowid rows)%Z.
Proof.
  unfold max_rowid. induction rows as [|row rows IH]; [simpl; lia|].
  rewrite fmap_cons. simpl foldr. lia.
Qed.

Lemma max_rowid_bound (rows : list chart_row) (row : chart_row) :
  row ∈ rows -> (row_id row <= max_rowid rows)%Z.
Proof.
  unfold max_rowid.
  induction 1 as [row rows|row other rows _ IH];
    rewrite fmap_cons; simpl foldr; lia.
Qed.

Lemma last_id_bound (db : database) (row : chart_row) :
  row ∈ charts db -> (row_id row <= last_id db)%Z.
Proof.
  intros Hrow. apply max_rowid_bound in Hrow. unfold last_id. lia.
Qed.

Lemma last_id_nonneg (db : database) : (0 <= last_id db)%Z.
Proof.
  unfold last_id. pose proof (max_rowid_nonneg (charts db)). lia.
Qed.

Lemma save_chart_accepted (db : database) (now : datetime)
    (question location : string) (res : result) (notes : string)
    (tags : option (list string)) (category : string) :
  accepts_charts db = true ->
  fits_int64 (default 0%Z (confidence res)) = true ->
  save_chart db now question location res notes tags category =
  inr ({| columns := columns db;
          charts := charts db ++
                    [saved_row (1 + last_id db) now question location res
                               notes tags category];
          sequence := (1 + last_id db)%Z |}, (1 + last_id db)%Z).
Proof.
  intros Hacc Hfits. unfold save_chart, insert_chart.
  rewrite prepare_ok.
  2:{ intros c Hc. apply accepts_charts_column; [exact Hacc|].
      for_columns Hc; column_listed. }
  unfold bind_int. rewrite Hfits. unfold next_id.
  pose proof (accepts_charts_room db Hacc) as Hroom.
  rewrite (proj2 (Z.ltb_lt _ _) Hroom).
  unfold saved_row, json_dumps. simpl.
  destruct tags as [[|t ts]|]; reflexivity.
Qed.

Lemma filter_none {A : Type} (P : A -> Prop) `{forall x, Decision (P x)}
    (l : list A) :
  (forall x, x ∈ l -> ~ P x) -> filter P l = [].
Proof.
  induction l as [|x l IH]; intros Hnone; [reflexivity|].
  rewrite filter_cons. destruct (decide (P x)) as [HP|_].
  - exfalso. apply (Hnone x); [left|exact HP].
  - apply IH. intros y Hy. apply Hnone. right. exact Hy.
Qed.

Lemma filter_all {A : Type} (P : A -> Prop) `{forall x, Decision (P x)}
    (l : list A) :
  (forall x, x ∈ l -> P x) -> filter P l = l.
Proof.
  induction l as [|x l IH]; intros Hall; [reflexivity|].
  rewrite filter_cons, decide_True by (apply Hall; left).
  f_equal. apply IH. intros y Hy. apply Hall. right. exact Hy.
Qed.

Lemma get_chart_finds_last (db : database) (row : chart_row) :
  (forall c, c ∈ current_columns -> has_column db c = true) ->
  fits_int64 (row_id row) = true ->
  (forall old, old ∈ charts db -> row_id old <> row_id row) ->
  get_chart {| columns := columns db;
               charts := charts db ++ [row];
               sequence := row_id row |} (row_id row) =
  Some {| rec_id := row_id row;
          rec_question := row_question row;
          rec_location := row_location row;
          rec_timestamp := row_timestamp row;
          rec_judgment := row_judgment row;
          rec_confidence := row_confidence row;
          rec_chart_data := (decode_cells row).1;
          rec_notes := row_notes row;
          rec_tags := (decode_cells row).2;
          rec_category := row_category row |}.
Proof.
  intros Hcols Hfits Hfresh. unfold get_chart, get_chart_try.
  assert (Hcol : forall c, c ∈ current_columns ->
            has_column {| columns := columns db; charts := charts db ++ [row];
                          sequence := row_id row |} c = true).
  { intros c Hc. apply (Hcols c Hc). }
  rewrite (Hcol "category") by column_listed.
  rewrite prepare_ok.
  2:{ intros c Hc. apply Hcol. simpl in Hc. for_columns Hc; column_listed. }
  unfold bind_int. rewrite Hfits. simpl.
  rewrite filter_app, (filter_none _ (charts db)) by exact Hfresh.
  simpl. rewrite filter_cons, decide_True by reflexivity.
  reflexivity.
Qed.

(** Saving on a table that accepts charts and reading the new id back. *)
Lemma save_then_get (db : database) (now : datetime)
    (question location : string) (res : result) (notes : string)
    (tags : option (list string)) (category : string) :
  accepts_charts db = true ->
  fits_int64 (default 0%Z (confidence res)) = true ->
  exists db',
    save_chart db now question location res notes tags category =
      inr (db', (1 + last_id db)%Z) /\
    charts db' =
      charts db ++ [saved_row (1 + last_id db) now question location res
                              notes tags category] /\
    columns db' = columns db /\
    get_chart db' (1 + last_id db) =
      Some {| rec_id := (1 + last_id db)%Z;
              rec_question := question;
              rec_location := location;
              rec_timestamp := Some (current_timestamp now);
              rec_judgment := Some (default "UNKNOWN" (judgment res));
              rec_confidence := Some (default 0%Z (confidence res));
              rec_chart_data := res;
              rec_notes := Some notes;
              rec_tags := default [] tags;
              rec_category := Some category |}.
Proof.
  intros Hacc Hfits. eexists. split; [|split; [|split]].
  - apply save_chart_accepted; assumption.
  - reflexivity.
  - reflexivity.
  - pose proof (accepts_charts_room db Hacc) as Hroom.
    pose proof (last_id_nonneg db) as Hpos.
    set (row := saved_row (1 + last_id db) now question location res notes
                          tags category).
    change (1 + last_id db)%Z with (row_id row).
    rewrite get_chart_finds_last.
    + reflexivity.
    + intros c Hc. apply accepts_charts_column; assumption.
    + unfold fits_int64. simpl. apply andb_true_intro. split; lia.
    + intros old Hold. apply last_id_bound in Hold. simpl. lia.
Qed.

Lemma get_statistics_total (db : database) (now : datetime) :
  has_column db "timestamp" = true ->
  has_column db "judgment" = true ->
  total_charts (get_statistics db now) = length (charts db).
Proof.
  intros Hts Hj. unfold get_statistics, get_statistics_try.
  rewrite !prepare_ok; [reflexivity| |];
    intros c Hc; for_columns Hc; assumption.
Qed.

(** C1, as the code has it: [save_chart] does not validate.  On a table
    that accepts charts, a call with any question and any location, the
    empty and the blank ones included, succeeds, appends exactly one row
    holding the question and the location as given, and
    [get_statistics()['total_charts']] grows by one. *)
Theorem save_chart_does_not_validate (db : database) (now clock : datetime)
    (question location : string) (res : result) (notes : string)
    (tags : option (list string)) (category : string) :
  accepts_charts db = true ->
  fits_int64 (default 0%Z (confidence res)) = true ->
  exists db' chart_id row,
    save_chart db now question location res notes tags category =
      inr (db', chart_id) /\
    charts db' = charts db ++ [row] /\
    row_id row = chart_id /\
    row_question row = question /\
    row_location row = location /\
    total_charts (get_statistics db' clock) =
      S (total_charts (get_statistics db clock)).
Proof.
  intros Hacc Hfits.
  destruct (save_then_get db now question location res notes tags category
              Hacc Hfits) as (db' & Hsave & Hcharts & Hcols & _).
  exists db', (1 + last_id db)%Z,
    (saved_row (1 + last_id db) now question location res notes tags category).
  repeat split; try assumption.
  assert (Hcol : forall c, c ∈ current_columns -> has_column db' c = true).
  { intros c Hc. unfold has_column, table_info. rewrite Hcols.
    apply (accepts_charts_column db c Hacc Hc). }
  rewrite !get_statistics_total.
  - rewrite Hcharts, length_app. simpl. lia.
  - apply accepts_charts_column; [assumption|column_listed].
  - apply accepts_charts_column; [assumption|column_listed].
  - apply Hcol. column_listed.
  - apply Hcol. column_listed.
Qed.

Lemma save_chart_does_not_validate_witness :
  accepts_charts fresh = true /\
  fits_int64 (default 0%Z (confidence yes_82)) = true /\
  exists db' chart_id row,
    save_chart fresh noon "" "   " yes_82 "" None "general" =
      inr (db', chart_id) /\
    charts db' = charts fresh ++ [row] /\
    row_id row = chart_id /\
    row_question row = "" /\
    row_location row = "   " /\
    total_charts (get_statistics db' noon) =
      S (total_charts (get_statistics fresh noon)).
Proof.
  split; [reflexivity|]. split; [reflexivity|].
  apply (save_chart_does_not_validate fresh noon noon "" "   " yes_82 ""
           None "general"); reflexivity.
Defined.

(** C1, as stated, fails: [save_chart("", "London", ...)] on a fresh store
    raises nothing, returns id 1, and the total goes from 0 to 1. *)
Lemma save_chart_empty_question_is_written :
  exists db',
    save_chart fresh noon "" "London" yes_82 "" None "general" =
      inr (db', 1%Z) /\
    total_charts (get_statistics fresh noon) = 0 /\
    total_charts (get_statistics db' noon) = 1.
Proof.
  eexists. split; [vm_compute; reflexivity|].
  split; vm_compute; reflexivity.
Qed.

(** C2: the round trip.  On a table that accepts charts, [save_chart] with
    a result holding a judgment and a confidence (one that fits an SQLite
    integer) returns an id under which [get_chart] finds a record with that
    id and with the question, location, judgment and confidence as given. *)
Theorem save_chart_get_chart_round_trip (db : database) (now : datetime)
    (question location : string) (j : string) (c : Z)
    (payload : option chart_payload) (notes : string)
    (tags : option (list string)) (category : string) :
  accepts_charts db = true ->
  fits_int64 c = true ->
  exists db' chart_id rec,
    save_chart db now question location
               {| judgment := Some j; confidence := Some c;
                  chart_data := payload |}
               notes tags category = inr (db', chart_id) /\
    get_chart db' chart_id = Some rec /\
    rec_id rec = chart_id /\
    rec_question rec = question /\
    rec_location rec = location /\
    rec_judgment rec = Some j /\
    rec_confidence rec = Some c.
Proof.
  intros Hacc Hfits.
  destruct (save_then_get db now question location
              {| judgment := Some j; confidence := Some c;
                 chart_data := payload |} notes tags category
              Hacc Hfits) as (db' & Hsave & _ & _ & Hget).
  eexists db', _, _. split; [exact Hsave|]. split; [exact Hget|].
  repeat split.
Qed.

Lemma save_chart_get_chart_round_trip_witness :
  accepts_charts fresh = true /\
  fits_int64 82 = true /\
  exists db' chart_id rec,
    save_chart fresh noon "Will I get the job?" "London, England"
               {| judgment := Some "YES"; confidence := Some 82%Z;
                  chart_data := None |}
               "" None "general" = inr (db', chart_id) /\
    get_chart db' chart_id = Some rec /\
    rec_id rec = chart_id /\
    rec_question rec = "Will I get the job?" /\
    rec_location rec = "London, England" /\
    rec_judgment rec = Some "YES" /\
    rec_confidence rec = Some 82%Z.
Proof.
  split; [reflexivity|]. split; [reflexivity|].
  apply (save_chart_get_chart_round_trip fresh noon "Will I get the job?"
           "London, England" "YES" 82 None "" None "general"); reflexivity.
Defined.

(** C10: the defaults.  A result without a ['judgment'] key is stored with
    judgment ["UNKNOWN"], one without a ['confidence'] key with confidence
    0, and [get_chart] returns these for the new id. *)
Theorem save_chart_defaults (db : database) (now : datetime)
    (question location : string) (res : result) (notes : string)
    (tags : option (list string)) (category : string) :
  accepts_charts db = true ->
  fits_int64 (default 0%Z (confidence res)) = true ->
  exists db' chart_id row rec,
    save_chart db now question location res notes tags category =
      inr (db', chart_id) /\
    charts db' = charts db ++ [row] /\
    get_chart db' chart_id = Some rec /\
    (judgment res = None ->
     row_judgment row = Some "UNKNOWN" /\ rec_judgment rec = Some "UNKNOWN") /\
    (confidence res = None ->
     row_confidence row = Some 0%Z /\ rec_confidence rec = Some 0%Z).
Proof.
  intros Hacc Hfits.
  destruct (save_then_get db now question location res notes tags category
              Hacc Hfits) as (db' & Hsave & Hcharts & _ & Hget).
  eexists db', _, _, _. split; [exact Hsave|]. split; [exact Hcharts|].
  split; [exact Hget|]. simpl.
  split; intros ->; split; reflexivity.
Qed.

Lemma save_chart_defaults_witness :
  accepts_charts fresh = true /\
  fits_int64 (default 0%Z (confidence empty_result)) = true /\
  exists db' chart_id row rec,
    save_chart fresh noon "Will it rain?" "Paris" empty_result "" None
               "general" = inr (db', chart_id) /\
    charts db' = charts fresh ++ [row] /\
    get_chart db' chart_id = Some rec /\
    (judgment empty_result = None ->
     row_judgment row = Some "UNKNOWN" /\ rec_judgment rec = Some "UNKNOWN") /\
    (confidence empty_result = None ->
     row_confidence row = Some 0%Z /\ rec_confidence rec = Some 0%Z).
Proof.
  split; [reflexivity|]. split; [reflexivity|].
  apply (save_chart_defaults fresh noon "Will it rain?" "Paris" empty_result
           "" None "general"); reflexivity.
Defined.

(** C8: an id no row carries.  [get_chart] returns [None], whatever the
    table and the id; where the statement can be prepared and the id bound,
    the [try] itself ends on [return None], without an exception. *)
Theorem get_chart_missing_id (db : database) (chart_id : Z) :
  (forall row, row ∈ charts db -> row_id row <> chart_id) ->
  get_chart db chart_id = None /\
  ((forall c, c ∈ legacy_columns -> has_column db c = true) ->
   fits_int64 chart_id = true ->
   get_chart_try db chart_id = inr None).
Proof.
  intros Hmiss. split.
  - unfold get_chart, get_chart_try.
    destruct (prepare db _) as [e|[]]; [reflexivity|]. simpl.
    unfold bind_int. destruct (fits_int64 chart_id); [|reflexivity]. simpl.
    rewrite filter_none by exact Hmiss. reflexivity.
  - intros Hcols Hfits. unfold get_chart_try.
    rewrite prepare_ok.
    + unfold bind_int. rewrite Hfits. simpl.
      rewrite filter_none by exact Hmiss. reflexivity.
    + intros c Hc. destruct (has_column db "category") eqn:Hcat;
        simpl in Hc; for_columns Hc; try exact Hcat;
        apply Hcols; column_listed.
Qed.

Lemma get_chart_missing_id_witness :
  (forall row, row ∈ charts legacy -> row_id row <> 7%Z) /\
  get_chart legacy 7 = None /\
  get_chart_try legacy 7 = inr None.
Proof.
  assert (Hmiss : forall row, row ∈ charts legacy -> row_id row <> 7%Z).
  { intros row Hrow. apply list_elem_of_singleton in Hrow as ->.
    simpl. lia. }
  split; [exact Hmiss|].
  destruct (get_chart_missing_id legacy 7 Hmiss) as [Hnone Htry].
  split; [exact Hnone|]. apply Htry; [|reflexivity].
  intros c Hc. unfold legacy_columns in Hc. for_columns Hc; reflexivity.
Defined.

(** * The store: ranges of dates *)

Lemma compare_common_prefix (p a b : string) :
  String.compare (p +:+ a) (p +:+ b) = String.compare a b.
Proof.
  induction p as [|c p IH]; simpl; [reflexivity|].
  unfold Ascii.compare. rewrite N.compare_refl. exact IH.
Qed.

(** A [CURRENT_TIMESTAMP] text sorts before the [isoformat()] text of every
    instant of the same day: they part at the separator, a space against a
    ['T']. *)
Lemma stamp_before_isoformat (start_date stamped : datetime) :
  date_text start_date = date_text stamped ->
  String.leb (isoformat start_date) (current_timestamp stamped) = false.
Proof.
  intros Hday. unfold isoformat, current_timestamp, String.leb.
  rewrite Hday, compare_common_prefix. reflexivity.
Qed.

(** Hence a chart stamped on the day the range starts is left out, at
    whatever time of that day the range starts. *)
Lemma start_day_left_out (start_date end_date stamped : datetime)
    (row : chart_row) :
  date_text start_date = date_text stamped ->
  row_timestamp row = Some (current_timestamp stamped) ->
  in_range start_date end_date row = false.
Proof.
  intros Hday Hrow. unfold in_range, cell_between. rewrite Hrow.
  rewrite (stamp_before_isoformat _ _ Hday). reflexivity.
Qed.

(** C9 at a boundary instant: the one chart of the store is stamped
    [2025-06-06 12:00:00]; the range from that instant to that instant is
    bound as [2025-06-06T12:00:00] on both sides and returns nothing, and so
    does the range over the whole of that day. *)
Theorem date_range_misses_boundary_instant :
  (exists row,
     charts saved_at_noon = [row] /\
     row_timestamp row = Some "2025-06-06 12:00:00" /\
     row_timestamp row = Some (current_timestamp noon)) /\
  isoformat noon = "2025-06-06T12:00:00" /\
  get_charts_by_date_range saved_at_noon noon noon = [] /\
  isoformat midnight = "2025-06-06T00:00:00" /\
  isoformat last_instant = "2025-06-06T23:59:59.999999" /\
  get_charts_by_date_range saved_at_noon midnight last_instant = [].
Proof.
  split; [eexists; repeat split; vm_compute; reflexivity|].
  repeat split; vm_compute; reflexivity.
Qed.

(** * The store: recent charts under both schemas *)

Section OrderByFacts.

Context {A : Type} (leb : A -> A -> bool).

Lemma insert_sorted_elem (x y : A) (l : list A) :
  y ∈ insert_sorted leb x l <-> y = x \/ y ∈ l.
Proof.
  induction l as [|z l IH]; simpl.
  - rewrite list_elem_of_singleton, elem_of_nil. tauto.
  - destruct (leb x z).
    + apply elem_of_cons.
    + rewrite !elem_of_cons, IH. tauto.
Qed.

Lemma order_by_elem (y : A) (l : list A) : y ∈ order_by leb l <-> y ∈ l.
Proof.
  induction l as [|x l IH]; simpl; [reflexivity|].
  rewrite insert_sorted_elem, elem_of_cons, IH. reflexivity.
Qed.

End OrderByFacts.


(** What the loop over the fetched rows returns comes from the rows. *)
Lemma for_rows_inr {A B : Type} (f : A -> exn + B) (rows : list A)
    (found : list B) (x : B) :
  for_rows f rows = inr found ->
  x ∈ found -> exists row, row ∈ rows /\ f row = inr x.
Proof.
  revert found. induction rows as [|row rows IH]; simpl; intros found Hrun Hx.
  - injection Hrun as <-. apply elem_of_nil in Hx. contradiction.
  - destruct (f row) as [e|y] eqn:Hrow; simpl in Hrun; [discriminate|].
    destruct (for_rows f rows) as [e|ys]; simpl in Hrun; [discriminate|].
    injection Hrun as <-. apply elem_of_cons in Hx as [->|Hx].
    + exists row. split; [left|exact Hrow].
    + destruct (IH ys eq_refl Hx) as (r & Hr & Hf).
      exists r. split; [right; exact Hr|exact Hf].
Qed.

Lemma for_rows_inl {A B : Type} (f : A -> exn + B) (rows : list A) (e : exn) :
  for_rows f rows = inl e -> exists row, row ∈ rows /\ f row = inl e.
Proof.
  induction rows as [|row rows IH]; simpl; intros Hrun; [discriminate|].
  destruct (f row) as [e'|x] eqn:Hrow; simpl in Hrun.
  - injection Hrun as ->. exists row. split; [left|exact Hrow].
  - destruct (for_rows f rows) as [e'|xs]; simpl in Hrun; [|discriminate].
    injection Hrun as ->. destruct (IH eq_refl) as (r & Hr & Hf).
    exists r. split; [right; exact Hr|exact Hf].
Qed.

Lemma loads_cell_raises {A : Type} (empty : A) (cell : option (json_text A))
    (e : exn) :
  loads_cell empty cell = inl e -> e = JSONDecodeError.
Proof.
  destruct cell as [[v|text]|]; simpl; [discriminate| |discriminate].
  destruct text; [discriminate|]. intros [= <-]. reflexivity.
Qed.




(** * The store: the success rate *)

Section GroupByFacts.

Context {K : Type} `{Countable K}.

Lemma tally_cons (k x : K) (keys : list K) :
  tally k (x :: keys) = (if decide (x = k) then 1 else 0) + tally k keys.
Proof.
  unfold tally. rewrite filter_cons. destruct (decide (x = k)); reflexivity.
Qed.

Lemma tally_absent (k : K) (keys : list K) : k ∉ keys -> tally k keys = 0.
Proof.
  intros Hk. unfold tally. rewrite filter_none; [reflexivity|].
  intros x Hx ->. exact (Hk Hx).
Qed.

Lemma group_by_count_keys (keys : list K) :
  (group_by_count keys).*1 = remove_dups keys.
Proof.
  unfold group_by_count. rewrite <- list_fmap_compose.
  apply list_fmap_id.
Qed.

(** The dict of the groups maps a key to the number of its occurrences. *)
Lemma group_by_count_lookup (keys : list K) (k : K) :
  default 0 ((list_to_map (group_by_count keys) : gmap K nat) !! k) =
  tally k keys.
Proof.
  destruct (decide (k ∈ keys)) as [Hk|Hk].
  - erewrite elem_of_list_to_map_1; [reflexivity| |].
    + rewrite group_by_count_keys. apply NoDup_remove_dups.
    + unfold group_by_count. apply list_elem_of_fmap.
      exists k. split; [reflexivity|]. apply elem_of_remove_dups, Hk.
  - rewrite not_elem_of_list_to_map_1.
    + rewrite tally_absent by exact Hk. reflexivity.
    + rewrite group_by_count_keys, elem_of_remove_dups. exact Hk.
Qed.

(** Summing the tallies of distinct keys counts the elements among them. *)
Lemma tally_sum (ks keys : list K) :
  NoDup ks ->
  foldr (fun k acc => tally k keys + acc) 0 ks =
  length (filter (fun x => x ∈ ks) keys).
Proof.
  induction 1 as [|k ks Hk Hks IH]; simpl.
  - rewrite filter_none; [reflexivity|].
    intros x _ Hx. apply elem_of_nil in Hx. exact Hx.
  - rewrite IH. clear IH. induction keys as [|x keys IHkeys]; [reflexivity|].
    rewrite tally_cons, !filter_cons.
    destruct (decide (x = k)) as [Heq|Hne], (decide (x ∈ ks)) as [Hin|Hout],
             (decide (x ∈ k :: ks)) as [Hin'|Hout'];
      simpl; try lia; exfalso.
    + subst x. exact (Hk Hin).
    + subst x. exact (Hk Hin).
    + apply Hout'. rewrite Heq. left.
    + apply Hout'. right. exact Hin.
    + apply elem_of_cons in Hin' as [Heq|Hin']; contradiction.
Qed.

(** [sum(d.values())] over the dict of the groups is the number of keys. *)
Lemma group_by_count_total (keys : list K) :
  map_fold (fun (_ : K) count acc => count + acc) 0
           (list_to_map (group_by_count keys) : gmap K nat) =
  length keys.
Proof.
  rewrite map_fold_foldr.
  assert (Hperm : map_to_list
            (list_to_map (group_by_count keys) : gmap K nat)
            ≡ₚ group_by_count keys).
  { apply map_to_list_to_map. rewrite group_by_count_keys.
    apply NoDup_remove_dups. }
  transitivity (foldr (uncurry (fun (_ : K) count acc => count + acc)) 0
                      (group_by_count keys)).
  - refine (foldr_permutation_proper eq _ 0 _ _ _ Hperm).
    intros [k1 c1] [k2 c2] acc. simpl. lia.
  - unfold group_by_count.
    transitivity (foldr (fun k acc => tally k keys + acc) 0
                        (remove_dups keys)).
    + induction (remove_dups keys) as [|k ks IH]; [reflexivity|].
      rewrite fmap_cons. simpl. rewrite IH. reflexivity.
    + rewrite tally_sum by apply NoDup_remove_dups.
      rewrite filter_all; [reflexivity|].
      intros x Hx. apply elem_of_remove_dups, Hx.
Qed.

End GroupByFacts.

Lemma yes_or_no_some (row : chart_row) (j : string) :
  yes_or_no row = Some j <->
  row_judgment row = Some j /\ (j = "YES" \/ j = "NO").
Proof.
  unfold yes_or_no. destruct (row_judgment row) as [j'|].
  - destruct (bool_decide (j' = "YES" \/ j' = "NO")) eqn:Hj.
    + apply bool_decide_eq_true in Hj. split.
      * intros [= <-]. split; [reflexivity|exact Hj].
      * intros [[= <-] _]. reflexivity.
    + apply bool_decide_eq_false in Hj. split; [discriminate|].
      intros [[= <-] Hj']. contradiction.
  - split; [discriminate|]. intros [[=] _].
Qed.

Lemma omap_step {A B : Type} (f : A -> option B) (x : A) (l : list A) :
  omap f (x :: l) =
  match f x with Some y => y :: omap f l | None => omap f l end.
Proof. reflexivity. Qed.

Lemma yes_or_no_tally (j : string) (rows : list chart_row) :
  j = "YES" \/ j = "NO" ->
  tally j (omap yes_or_no rows) =
  length (filter (fun row => row_judgment row = Some j) rows).
Proof.
  intros Hj. induction rows as [|row rows IH]; [reflexivity|].
  rewrite filter_cons, omap_step.
  destruct (yes_or_no row) as [j'|] eqn:Hrow.
  - apply yes_or_no_some in Hrow as [Hrow _].
    rewrite tally_cons, IH, Hrow.
    destruct (decide (j' = j)) as [->|Hne].
    + rewrite decide_True by reflexivity. reflexivity.
    + rewrite decide_False by congruence. reflexivity.
  - rewrite IH. rewrite decide_False; [reflexivity|].
    intros Hrow'. assert (Hsome : yes_or_no row = Some j).
    { apply yes_or_no_some. split; assumption. }
    congruence.
Qed.

Lemma yes_or_no_length (rows : list chart_row) :
  length (omap yes_or_no rows) =
  length (filter (fun row => row_judgment row = Some "YES") rows) +
  length (filter (fun row => row_judgment row = Some "NO") rows).
Proof.
  induction rows as [|row rows IH]; [reflexivity|].
  rewrite !filter_cons, omap_step.
  destruct (yes_or_no row) as [j|] eqn:Hrow.
  - apply yes_or_no_some in Hrow as [Hrow [->| ->]]; rewrite Hrow.
    + rewrite decide_True by reflexivity.
      rewrite decide_False by discriminate. simpl. rewrite IH. reflexivity.
    + rewrite decide_False by discriminate.
      rewrite decide_True by reflexivity. simpl. rewrite IH. lia.
  - rewrite !decide_False; [exact IH| |].
    + intros Hrow'. assert (Hsome : yes_or_no row = Some "NO").
      { apply yes_or_no_some. split; [assumption|right; reflexivity]. }
      congruence.
    + intros Hrow'. assert (Hsome : yes_or_no row = Some "YES").
      { apply yes_or_no_some. split; [assumption|left; reflexivity]. }
      congruence.
Qed.

(** The rate [get_statistics] computes when its queries run. *)
Lemma get_statistics_success_rate (db : database) (now : datetime) :
  has_column db "timestamp" = true ->
  has_column db "judgment" = true ->
  success_rate (get_statistics db now) =
  yes_share (count_judgment "YES" db) (count_judgment "NO" db).
Proof.
  intros Hts Hj. unfold get_statistics, get_statistics_try.
  rewrite !prepare_ok by (intros c Hc; for_columns Hc; assumption).
  unfold bind_exn. cbv beta iota. cbn [success_rate].
  rewrite group_by_count_total, group_by_count_lookup.
  rewrite yes_or_no_length, yes_or_no_tally by (left; reflexivity).
  reflexivity.
Qed.

(** Without them the [except] branch answers 0. *)
Lemma get_statistics_failed (db : database) (now : datetime) :
  has_column db "timestamp" = false \/ has_column db "judgment" = false ->
  get_statistics db now = failed_statistics.
Proof.
  intros Hmiss. unfold get_statistics, get_statistics_try.
  destruct (has_column db "timestamp") eqn:Hts.
  - destruct Hmiss as [Hmiss|Hmiss]; [discriminate|].
    rewrite (prepare_ok db ["timestamp"])
      by (intros c Hc; for_columns Hc; assumption).
    rewrite (prepare_missing db ["judgment"] "judgment");
      [reflexivity|left|exact Hmiss].
  - rewrite (prepare_missing db ["timestamp"] "timestamp");
      [reflexivity|left|exact Hts].
Qed.

Lemma yes_share_range (yes no : nat) : (0 <= yes_share yes no <= 100)%Q.
Proof.
  unfold yes_share. destruct (0 <? yes + no)%nat eqn:Hjudged.
  2:{ split; [apply Qle_refl|discriminate]. }
  apply Nat.ltb_lt in Hjudged.
  assert (Hpos : (0 < inject_Z (Z.of_nat (yes + no)))%Q).
  { change 0%Q with (inject_Z 0). rewrite <- Zlt_Qlt. lia. }
  assert (Hyes : (0 <= inject_Z (Z.of_nat yes))%Q).
  { change 0%Q with (inject_Z 0). rewrite <- Zle_Qle. lia. }
  assert (Hle : (inject_Z (Z.of_nat yes) <= inject_Z (Z.of_nat (yes + no)))%Q).
  { rewrite <- Zle_Qle. lia. }
  split.
  - apply Qmult_le_0_compat; [|discriminate].
    apply Qle_shift_div_l; [exact Hpos|]. rewrite Qmult_0_l. exact Hyes.
  - change 100%Q with (1 * 100)%Q at 2.
    apply Qmult_le_compat_r; [|discriminate].
    apply Qle_shift_div_r; [exact Hpos|]. rewrite Qmult_1_l. exact Hle.
Qed.

(** C4: the success rate.  When its queries run, [get_statistics] returns
    the number of charts judged exactly YES over the number judged exactly
    YES or NO, times 100; charts judged otherwise enter neither count.  The
    rate is 0 when no chart is judged YES or NO, and always lies between 0
    and 100. *)
Theorem success_rate_is_yes_share (db : database) (now : datetime) :
  (has_column db "timestamp" = true ->
   has_column db "judgment" = true ->
   success_rate (get_statistics db now) =
   yes_share (count_judgment "YES" db) (count_judgment "NO" db)) /\
  (count_judgment "YES" db + count_judgment "NO" db = 0 ->
   success_rate (get_statistics db now) = 0%Q) /\
  (0 <= success_rate (get_statistics db now) <= 100)%Q.
Proof.
  split; [apply get_statistics_success_rate|].
  destruct (has_column db "timestamp") eqn:Hts,
           (has_column db "judgment") eqn:Hj;
    try (rewrite get_statistics_failed by auto;
         split; [reflexivity|split; [apply Qle_refl|discriminate]]).
  rewrite get_statistics_success_rate by assumption. split.
  - intros Hnone. unfold yes_share. rewrite Hnone. reflexivity.
  - apply yes_share_range.
Qed.

Lemma success_rate_is_yes_share_witness :
  has_column three_charts "timestamp" = true /\
  has_column three_charts "judgment" = true /\
  count_judgment "YES" three_charts = 1 /\
  count_judgment "NO" three_charts = 1 /\
  success_rate (get_statistics three_charts noon) =
  yes_share (count_judgment "YES" three_charts)
            (count_judgment "NO" three_charts).
Proof.
  split; [reflexivity|]. split; [reflexivity|].
  split; [reflexivity|]. split; [reflexivity|].
  apply (proj1 (success_rate_is_yes_share three_charts noon)); reflexivity.
Defined.

(** * The wheel *)

Lemma emit_and_then (ops : list paint_op) (p : painting) :
  emit ops >> p = (ops ++ p.1, p.2).
Proof. reflexivity. Qed.

Lemma emit_nil_and_then (p : painting) : emit [] >> p = p.
Proof. destruct p. reflexivity. Qed.

Lemma and_then_emit_nil (p : painting) : p >> emit [] = p.
Proof.
  destruct p as [ops [e|]]; [reflexivity|].
  unfold and_then, emit. simpl. rewrite app_nil_r. reflexivity.
Qed.

Lemma and_then_assoc (p q r : painting) : (p >> q) >> r = p >> (q >> r).
Proof.
  destruct p as [ops1 [e1|]]; [reflexivity|].
  destruct q as [ops2 [e2|]]; [reflexivity|].
  destruct r as [ops3 e3]. unfold and_then. simpl.
  rewrite app_assoc. reflexivity.
Qed.

Lemma for_each_app {A : Type} (body : A -> painting) (l1 l2 : list A) :
  for_each body (l1 ++ l2) = for_each body l1 >> for_each body l2.
Proof.
  induction l1 as [|x l1 IH]; cbn [for_each app].
  - rewrite emit_nil_and_then. reflexivity.
  - rewrite IH, and_then_assoc. reflexivity.
Qed.

(** A call of a loop was made by one of its turns. *)
Lemma for_each_elem {A : Type} (body : A -> painting) (l : list A)
    (op : paint_op) :
  op ∈ (for_each body l).1 -> exists x, x ∈ l /\ op ∈ (body x).1.
Proof.
  induction l as [|x l IH]; simpl; intros Hop.
  - apply elem_of_nil in Hop. contradiction.
  - destruct (body x) as [ops [e|]] eqn:Hbody; simpl in Hop.
    + exists x. split; [left|]. rewrite Hbody. exact Hop.
    + apply elem_of_app in Hop as [Hop|Hop].
      * exists x. split; [left|]. rewrite Hbody. exact Hop.
      * destruct (IH Hop) as (y & Hy & Hop').
        exists y. split; [right; exact Hy|exact Hop'].
Qed.

Lemma planet_lookup_none (planets : list (string * planet_data))
    (name : string) :
  planet_lookup planets name = None <-> name ∉ planets.*1.
Proof.
  induction planets as [|[n data] planets IH]; simpl.
  - split; [intros _ Hin; apply elem_of_nil in Hin; exact Hin|reflexivity].
  - rewrite not_elem_of_cons. destruct (String.eqb n name) eqn:Hn.
    + apply String.eqb_eq in Hn as ->. split; [discriminate|].
      intros [Hne _]. contradiction.
    + apply String.eqb_neq in Hn. rewrite IH. split.
      * intros Hout. split; [congruence|exact Hout].
      * intros [_ Hout]. exact Hout.
Qed.

(** The turn of an aspect that is not applying paints nothing. *)
Lemma draw_aspect_separating (radius : Q)
    (planets : list (string * planet_data)) (a : aspect) :
  applying a <> Some true -> draw_aspect radius planets a = emit [].
Proof.
  intros Hsep. unfold draw_aspect.
  destruct (applying a) as [[|]|]; [contradiction|reflexivity|reflexivity].
Qed.

Lemma draw_aspect_paints_applying (radius : Q)
    (planets : list (string * planet_data)) (a : aspect) (op : paint_op) :
  op ∈ (draw_aspect radius planets a).1 -> applying a = Some true.
Proof.
  intros Hop. destruct (decide (applying a = Some true)) as [Happ|Hsep];
    [exact Happ|].
  rewrite draw_aspect_separating in Hop by exact Hsep.
  apply elem_of_nil in Hop. contradiction.
Qed.

(** C6: only applying aspects are drawn.  The calls of [draw_aspects] are
    those it makes on the applying aspects alone, and every call it makes
    was made by the turn of an aspect whose ['applying'] is [True]; an
    aspect whose flag is [False] or absent adds nothing. *)
Theorem only_applying_aspects_drawn (radius : Q) (aspects : list aspect)
    (planets : list (string * planet_data)) :
  draw_aspects radius aspects planets =
  draw_aspects radius (filter (fun a => applying a = Some true) aspects)
               planets /\
  forall op, op ∈ (draw_aspects radius aspects planets).1 ->
    exists a, a ∈ aspects /\ applying a = Some true /\
              op ∈ (draw_aspect radius planets a).1.
Proof.
  split.
  - unfold draw_aspects. induction aspects as [|a aspects IH];
      [reflexivity|].
    rewrite filter_cons. destruct (decide (applying a = Some true)).
    + cbn [for_each]. rewrite IH. reflexivity.
    + cbn [for_each].
      rewrite draw_aspect_separating, emit_nil_and_then by assumption.
      exact IH.
  - intros op Hop. apply for_each_elem in Hop as (a & Ha & Hop).
    exists a. split; [exact Ha|]. split; [|exact Hop].
    apply (draw_aspect_paints_applying radius planets a op Hop).
Qed.

Lemma only_applying_aspects_drawn_witness :
  DrawLine (Polar 100 5.4) (Polar 100 (-80)) ∈
    (draw_aspects 100 [separating_trine; applying_square] sun_moon).1 /\
  exists a, a ∈ [separating_trine; applying_square] /\
            applying a = Some true /\
            DrawLine (Polar 100 5.4) (Polar 100 (-80)) ∈
              (draw_aspect 100 sun_moon a).1.
Proof.
  assert (Hop : DrawLine (Polar 100 5.4) (Polar 100 (-80)) ∈
            (draw_aspects 100 [separating_trine; applying_square]
                          sun_moon).1).
  { vm_compute. right. left. }
  split; [exact Hop|].
  apply (proj2 (only_applying_aspects_drawn 100
                  [separating_trine; applying_square] sun_moon) _ Hop).
Defined.

(** C7: a dangling aspect is skipped.  The turn of an applying aspect, with
    its three keys, one of whose planets is no key of [planets], paints
    nothing and raises nothing: [draw_aspects] goes on as if the aspect were
    not in the list. *)
Theorem dangling_aspect_skipped (radius : Q)
    (planets : list (string * planet_data)) (a : aspect)
    (planet1_name planet2_name kind : string) :
  applying a = Some true ->
  planet1 a = Some planet1_name ->
  planet2 a = Some planet2_name ->
  aspect_type a = Some kind ->
  planet1_name ∉ planets.*1 \/ planet2_name ∉ planets.*1 ->
  draw_aspect radius planets a = ([], None) /\
  forall before after,
    draw_aspects radius (before ++ a :: after) planets =
    draw_aspects radius (before ++ after) planets.
Proof.
  intros Happ Hp1 Hp2 Hkind Hdangling.
  assert (Hskip : draw_aspect radius planets a = emit []).
  { unfold draw_aspect. rewrite Happ, Hp1, Hp2, Hkind. simpl.
    destruct Hdangling as [Hout|Hout];
      apply planet_lookup_none in Hout; rewrite Hout; [reflexivity|].
    destruct (planet_lookup planets planet1_name); reflexivity. }
  split; [exact Hskip|]. intros before after. unfold draw_aspects.
  rewrite !for_each_app. cbn [for_each].
  rewrite Hskip, emit_nil_and_then. reflexivity.
Qed.

Lemma dangling_aspect_skipped_witness :
  applying dangling_square = Some true /\
("Pluto" ∉ sun_moon.*1) /\
  draw_aspect 100 sun_moon dangling_square = ([], None) /\
  draw_aspects 100 ([applying_square] ++ dangling_square :: [applying_square])
               sun_moon =
  draw_aspects 100 ([applying_square] ++ [applying_square]) sun_moon.
Proof.
  assert (Hpluto : "Pluto" ∉ sun_moon.*1).
  { apply planet_lookup_none. reflexivity. }
  destruct (dangling_aspect_skipped 100 sun_moon dangling_square
              "Sun" "Pluto" "Square" eq_refl eq_refl eq_refl eq_refl
              (or_intror Hpluto)) as [Hskip Hgoes].
  split; [reflexivity|]. split; [exact Hpluto|]. split; [exact Hskip|].
  apply Hgoes.
Defined.

(** [draw_placeholder] sets its first pen and raises at [drawCircle]; the
    caption after it is never reached. *)
Lemma draw_placeholder_raises (self : canvas) :
  draw_placeholder self =
  ([SetPen "#ccc" 2 SolidLine], Some (AttributeError "drawCircle")).
Proof. reflexivity. Qed.

(** [draw_chart_wheel] raises at the background disc, before the zodiac
    and before it reads anything of the chart. *)
Lemma draw_chart_wheel_raises (self : canvas) :
  draw_chart_wheel self =
  ([SetPen "#f0f0f0" 1 SolidLine; SetBrush (Solid "#fafafa")],
   Some (AttributeError "drawCircle")).
Proof. reflexivity. Qed.

(** C3: the placeholder is attempted and missed.  [draw_placeholder] and
    [draw_chart_wheel] call [painter.drawCircle], a method [QPainter] does
    not have.  Without a ['chart_data'] key [paintEvent] sets the hint and
    the pen of the placeholder and raises [AttributeError]; with the key,
    whatever it holds, [draw_chart_wheel] raises at the background disc,
    the handler calls [draw_placeholder], and that raises out of
    [paintEvent].  In every case nothing is drawn: no ring, no caption, no
    sector. *)
Theorem paintEvent_raises_on_drawCircle (self : canvas) :
  (paintEvent self).2 = Some (AttributeError "drawCircle") /\
  Forall (fun op => draws op = false) (paintEvent self).1 /\
  (payload_of self = None ->
   (paintEvent self).1 = [SetRenderHint; SetPen "#ccc" 2 SolidLine]) /\
  (payload_of self <> None ->
   (paintEvent self).1 =
   [SetRenderHint; SetPen "#f0f0f0" 1 SolidLine; SetBrush (Solid "#fafafa");
    SetPen "#ccc" 2 SolidLine]).
Proof.
  unfold paintEvent.
  destruct (payload_of self) as [payload|].
  - rewrite draw_chart_wheel_raises. unfold try_except.
    rewrite draw_placeholder_raises. cbn.
    split; [reflexivity|]. split; [repeat constructor|].
    split; [discriminate|reflexivity].
  - rewrite draw_placeholder_raises. cbn.
    split; [reflexivity|]. split; [repeat constructor|].
    split; [reflexivity|]. intros Hsome. contradiction.
Qed.

(** * Texts of instants and their order *)

Lemma compare_refl (s : string) : String.compare s s = Eq.
Proof.
  induction s as [|c s IH]; simpl; [reflexivity|].
  unfold Ascii.compare. rewrite N.compare_refl. exact IH.
Qed.

Lemma append_length (a b : string) :
  String.length (a +:+ b) = String.length a + String.length b.
Proof. induction a as [|c a IH]; simpl; [reflexivity|]. rewrite IH. reflexivity. Qed.

Lemma zpad_length (w : nat) (n : Z) : String.length (zpad w n) = w.
Proof.
  revert n. induction w as [|w IH]; intros n; simpl; [reflexivity|].
  rewrite append_length, IH. simpl. lia.
Qed.

Lemma date_text_length (d : datetime) : String.length (date_text d) = 10.
Proof.
  unfold date_text. rewrite !append_length, !zpad_length. reflexivity.
Qed.

(** Two texts of one length that differ are ordered by themselves, whatever
    follows them. *)
Lemma compare_distinct_prefixes (a b x y : string) :
  String.length a = String.length b -> a <> b ->
  String.compare (a +:+ x) (b +:+ y) = String.compare a b.
Proof.
  revert b. induction a as [|c a IH]; intros [|c' b] Hlen Hne;
    simpl in Hlen; try discriminate.
  - contradiction.
  - simpl. destruct (Ascii.compare c c') eqn:Hc; try reflexivity.
    apply Ascii.compare_eq_iff in Hc as ->.
    apply IH; [lia|]. intros ->. contradiction.
Qed.

(** Against the lower bound: the day of the chart must come strictly after
    the day of the bound. *)
Lemma isoformat_leb_stamp (bound stamp : datetime) :
  String.leb (isoformat bound) (current_timestamp stamp) =
  String.ltb (date_text bound) (date_text stamp).
Proof.
  unfold isoformat, current_timestamp, String.leb, String.ltb.
  destruct (decide (date_text bound = date_text stamp)) as [Heq|Hne].
  - rewrite Heq, compare_common_prefix, compare_refl. reflexivity.
  - rewrite compare_distinct_prefixes;
      [|rewrite !date_text_length; reflexivity|exact Hne].
    destruct (String.compare (date_text bound) (date_text stamp)) eqn:Hc;
      try reflexivity.
    apply String.compare_eq_iff in Hc. contradiction.
Qed.

(** Against the upper bound: the day of the chart must not come after the
    day of the bound. *)
Lemma stamp_leb_isoformat (bound stamp : datetime) :
  String.leb (current_timestamp stamp) (isoformat bound) =
  String.leb (date_text stamp) (date_text bound).
Proof.
  unfold isoformat, current_timestamp, String.leb.
  destruct (decide (date_text stamp = date_text bound)) as [Heq|Hne].
  - rewrite Heq, compare_common_prefix, compare_refl. reflexivity.
  - rewrite compare_distinct_prefixes;
      [reflexivity|rewrite !date_text_length; reflexivity|exact Hne].
Qed.

Lemma in_range_by_days (start_date end_date stamp : datetime)
    (row : chart_row) :
  stamped row stamp ->
  in_range start_date end_date row =
  String.ltb (date_text start_date) (date_text stamp) &&
  String.leb (date_text stamp) (date_text end_date).
Proof.
  intros Hrow. unfold in_range, cell_between. rewrite Hrow.
  rewrite isoformat_leb_stamp, stamp_leb_isoformat. reflexivity.
Qed.

Lemma in_range_same_timestamp (start_date end_date : datetime)
    (a b : chart_row) :
  row_timestamp a = row_timestamp b ->
  in_range start_date end_date a = in_range start_date end_date b.
Proof. unfold in_range. intros ->. reflexivity. Qed.

(** X1: for a chart stamped by [CURRENT_TIMESTAMP] the range query goes by
    whole days.  The chart is returned exactly when the text of its day
    lies strictly after that of the start and not after that of the end;
    the times of day of the chart and of the two bounds play no part. *)
Theorem date_range_goes_by_days (db : database)
    (start_date end_date stamp : datetime) (row : chart_row) :
  (forall c, c ∈ ["id"; "question"; "location"; "timestamp"; "judgment";
                  "confidence"] -> has_column db c = true) ->
  row ∈ charts db ->
  stamped row stamp ->
  ranged_row (has_column db "category") row
    ∈ get_charts_by_date_range db start_date end_date <->
  String.ltb (date_text start_date) (date_text stamp) &&
  String.leb (date_text stamp) (date_text end_date) = true.
Proof.
  intros Hcols Hin Hrow.
  rewrite <- (in_range_by_days start_date end_date stamp row Hrow).
  unfold get_charts_by_date_range, get_charts_by_date_range_try.
  rewrite prepare_ok.
  2:{ intros c Hc. destruct (has_column db "category") eqn:Hcat;
        simpl in Hc; for_columns Hc; try exact Hcat;
        apply Hcols; column_listed. }
  simpl. rewrite list_elem_of_fmap. split.
  - intros (row' & Heq & Hrow').
    apply (proj1 (order_by_elem oldest_first _ _)) in Hrow'.
    apply list_elem_of_filter in Hrow' as [Hrange _].
    rewrite <- Hrange. apply in_range_same_timestamp.
    apply (f_equal sum_timestamp) in Heq. exact Heq.
  - intros Hrange. exists row. split; [reflexivity|].
    apply (proj2 (order_by_elem oldest_first _ _)), list_elem_of_filter.
    split; assumption.
Qed.

Lemma date_range_goes_by_days_witness :
  noon_row ∈ charts saved_at_noon /\
  stamped noon_row noon /\
  ranged_row (has_column saved_at_noon "category") noon_row
    ∈ get_charts_by_date_range saved_at_noon eve noon.
Proof.
  assert (Hin : noon_row ∈ charts saved_at_noon) by (vm_compute; left).
  split; [exact Hin|]. split; [reflexivity|].
  apply (proj2 (date_range_goes_by_days saved_at_noon eve noon noon noon_row
                  (fun c Hc => ltac:(for_columns Hc; reflexivity))
                  Hin eq_refl)).
  reflexivity.
Defined.

(** X2: the calendar of the timeline.  [on_date_selected] asks for the
    range from the first to the last instant of the selected day; no chart
    stamped by [CURRENT_TIMESTAMP] (and none without a timestamp) is ever
    listed, whatever day is selected. *)
Theorem on_date_selected_lists_nothing (db : database)
    (selected_date : Timeline.date) :
  (forall row, row ∈ charts db ->
     row_timestamp row = None \/ exists stamp, stamped row stamp) ->
  Timeline.on_date_selected db selected_date = [].
Proof.
  intros Hstamps.
  unfold Timeline.on_date_selected, get_charts_by_date_range,
    get_charts_by_date_range_try.
  destruct (prepare db _) as [e|[]]; [reflexivity|]. simpl.
  rewrite filter_none; [reflexivity|].
  intros row Hrow Hrange. destruct (Hstamps row Hrow) as [Hnull|[stamp Hst]].
  - unfold in_range in Hrange. rewrite Hnull in Hrange. discriminate.
  - rewrite (in_range_by_days _ _ stamp row Hst) in Hrange.
    apply andb_prop in Hrange as [Hlt Hle].
    change (date_text (Timeline.combine_max selected_date))
      with (date_text (Timeline.combine_min selected_date)) in Hle.
    unfold String.ltb, String.leb in Hlt, Hle.
    rewrite String.compare_antisym in Hle.
    destruct (String.compare (date_text (Timeline.combine_min selected_date))
                             (date_text stamp)); discriminate.
Qed.

Lemma on_date_selected_lists_nothing_witness :
  charts saved_at_noon = [noon_row] /\
  stamped noon_row noon /\
  Timeline.on_date_selected saved_at_noon june_6 = [].
Proof.
  split; [vm_compute; reflexivity|]. split; [reflexivity|].
  apply (on_date_selected_lists_nothing saved_at_noon june_6).
  intros row Hrow. right. exists noon.
  change (charts saved_at_noon) with [noon_row] in Hrow.
  apply list_elem_of_singleton in Hrow as ->. reflexivity.
Defined.

(** * The store: the month of the statistics *)

Lemma get_statistics_this_month (db : database) (now : datetime) :
  has_column db "timestamp" = true ->
  has_column db "judgment" = true ->
  this_month (get_statistics db now) =
  length (filter (fun row => cell_geb (row_timestamp row)
                               (isoformat (first_of_month now)) = true)
                 (charts db)).
Proof.
  intros Hts Hj. unfold get_statistics, get_statistics_try.
  rewrite !prepare_ok; [reflexivity| |];
    intros c Hc; for_columns Hc; assumption.
Qed.




(** * The store: order and length of the recent charts *)

Lemma string_leb_total (a b : string) :
  String.leb a b = false -> String.leb b a = true.
Proof.
  unfold String.leb. rewrite (String.compare_antisym b a).
  destruct (String.compare a b); simpl; intros; congruence.
Qed.

Lemma string_leb_trans (a b c : string) :
  String.leb a b = true -> String.leb b c = true -> String.leb a c = true.
Proof.
  unfold String.leb. revert b c.
  induction a as [|x a IH]; intros [|y b] [|z c]; simpl; try congruence.
  unfold Ascii.compare.
  destruct (N.compare_spec (N_of_ascii x) (N_of_ascii y)) as [Hxy|Hxy|Hxy],
           (N.compare_spec (N_of_ascii y) (N_of_ascii z)) as [Hyz|Hyz|Hyz];
    try congruence; intros Hab Hbc.
  - replace (N_of_ascii x ?= N_of_ascii z)%N with Eq
      by (symmetry; apply N.compare_eq_iff; congruence).
    exact (IH b c Hab Hbc).
  - replace (N_of_ascii x ?= N_of_ascii z)%N with Lt
      by (symmetry; apply N.compare_lt_iff; lia).
    reflexivity.
  - replace (N_of_ascii x ?= N_of_ascii z)%N with Lt
      by (symmetry; apply N.compare_lt_iff; lia).
    reflexivity.
  - replace (N_of_ascii x ?= N_of_ascii z)%N with Lt
      by (symmetry; apply N.compare_lt_iff; lia).
    reflexivity.
Qed.

Lemma cell_leb_total (a b : option string) :
  cell_leb a b = false -> cell_leb b a = true.
Proof.
  destruct a as [x|], b as [y|]; simpl; try congruence.
  apply string_leb_total.
Qed.

Lemma cell_leb_trans (a b c : option string) :
  cell_leb a b = true -> cell_leb b c = true -> cell_leb a c = true.
Proof.
  destruct a as [x|], b as [y|], c as [z|]; simpl; try congruence.
  apply string_leb_trans.
Qed.

Section OrderBySorted.

Context {A : Type} (leb : A -> A -> bool).
Hypothesis leb_total : forall x y, leb x y = false -> leb y x = true.
Hypothesis leb_trans :
  forall x y z, leb x y = true -> leb y z = true -> leb x z = true.

Lemma insert_sorted_sorted (x : A) (l : list A) :
  StronglySorted (fun a b => leb a b = true) l ->
  StronglySorted (fun a b => leb a b = true) (insert_sorted leb x l).
Proof.
  induction 1 as [|y l Hl IH Hy]; simpl.
  - repeat constructor.
  - destruct (leb x y) eqn:Hxy.
    + constructor; [constructor; assumption|].
      constructor; [exact Hxy|].
      eapply Forall_impl; [exact Hy|]. simpl. intros z Hyz.
      exact (leb_trans x y z Hxy Hyz).
    + constructor; [exact IH|].
      apply Forall_forall. intros z Hz.
      apply insert_sorted_elem in Hz as [->|Hz].
      * apply leb_total. exact Hxy.
      * rewrite Forall_forall in Hy. apply Hy. exact Hz.
Qed.

Lemma order_by_sorted (l : list A) :
  StronglySorted (fun a b => leb a b = true) (order_by leb l).
Proof.
  induction l as [|x l IH]; simpl; [constructor|].
  apply insert_sorted_sorted. exact IH.
Qed.

Lemma order_by_length (l : list A) : length (order_by leb l) = length l.
Proof.
  induction l as [|x l IH]; simpl; [reflexivity|]. rewrite <- IH. clear IH.
  induction (order_by leb l) as [|y k IHk]; simpl; [reflexivity|].
  destruct (leb x y); simpl; [reflexivity|]. rewrite IHk. reflexivity.
Qed.

End OrderBySorted.

Lemma take_strongly_sorted {A : Type} (R : A -> A -> Prop) (n : nat)
    (l : list A) :
  StronglySorted R l -> StronglySorted R (take n l).
Proof.
  intros Hl. revert n. induction Hl as [|x l Hl IH Hx]; intros [|n]; simpl;
    try constructor.
  - apply IH.
  - apply Forall_forall. intros y Hy. rewrite Forall_forall in Hx.
    apply Hx. apply (subseteq_take n l). exact Hy.
Qed.

Lemma sql_limit_sorted {A : Type} (R : A -> A -> Prop) (n : Z) (l : list A) :
  StronglySorted R l -> StronglySorted R (sql_limit n l).
Proof.
  unfold sql_limit. destruct (n <? 0)%Z; [trivial|].
  apply take_strongly_sorted.
Qed.

Lemma sql_limit_length {A : Type} (n : Z) (l : list A) :
  (0 <= n)%Z -> (Z.of_nat (length (sql_limit n l)) <= n)%Z.
Proof.
  intros Hn. unfold sql_limit.
  destruct (n <? 0)%Z eqn:Hneg; [lia|]. rewrite length_take. lia.
Qed.

Lemma sql_limit_whole {A : Type} (n : Z) (l : list A) :
  (n < 0)%Z \/ (Z.of_nat (length l) <= n)%Z -> sql_limit n l = l.
Proof.
  intros Hn. unfold sql_limit. destruct (n <? 0)%Z eqn:Hneg; [reflexivity|].
  apply take_ge. lia.
Qed.

Lemma for_rows_length {A B : Type} (f : A -> exn + B) (rows : list A)
    (found : list B) :
  for_rows f rows = inr found -> length found = length rows.
Proof.
  revert found. induction rows as [|row rows IH]; simpl; intros found Hrun.
  - injection Hrun as <-. reflexivity.
  - destruct (f row) as [e|x]; simpl in Hrun; [discriminate|].
    destruct (for_rows f rows) as [e|xs]; simpl in Hrun; [discriminate|].
    injection Hrun as <-. simpl. rewrite (IH xs eq_refl). reflexivity.
Qed.

(** A loop that keeps the sort key of each row keeps the order. *)
Lemma for_rows_sorted {A B : Type} (f : A -> exn + B) (key : A -> option string)
    (key' : B -> option string) (R : option string -> option string -> Prop)
    (rows : list A) (found : list B) :
  (forall row x, f row = inr x -> key' x = key row) ->
  for_rows f rows = inr found ->
  StronglySorted (fun a b => R (key a) (key b)) rows ->
  StronglySorted (fun a b => R (key' a) (key' b)) found.
Proof.
  intros Hkey. revert found.
  induction rows as [|row rows IH]; simpl; intros found Hrun Hsorted.
  - injection Hrun as <-. constructor.
  - destruct (f row) as [e|x] eqn:Hrow; simpl in Hrun; [discriminate|].
    destruct (for_rows f rows) as [e|xs] eqn:Hrest; simpl in Hrun;
      [discriminate|].
    injection Hrun as <-. inversion Hsorted as [|? ? Hs Hall]; subst.
    constructor; [apply IH; [reflexivity|exact Hs]|].
    apply Forall_forall. intros y Hy.
    destruct (for_rows_inr f rows xs y Hrest Hy) as (r & Hr & Hfr).
    rewrite (Hkey row x Hrow), (Hkey r y Hfr).
    rewrite Forall_forall in Hall. apply Hall. exact Hr.
Qed.

Lemma recent_row_timestamp (with_category : bool) (row : chart_row)
    (s : chart_summary) :
  recent_row with_category row = inr s -> sum_timestamp s = row_timestamp row.
Proof.
  unfold recent_row. destruct (loads_cell [] (row_tags row)); simpl;
    [discriminate|]. intros [= <-]. reflexivity.
Qed.

(** X4: [get_recent_charts] returns the charts newest first: the timestamp
    of each dict is at least that of every dict after it (NULL last), in
    the bytewise order of the texts. *)
Theorem get_recent_charts_newest_first (db : database) (limit : Z) :
  StronglySorted
    (fun a b => cell_leb (sum_timestamp b) (sum_timestamp a) = true)
    (get_recent_charts db limit).
Proof.
  unfold get_recent_charts, get_recent_charts_try.
  destruct (prepare db _) as [e|[]]; simpl; [constructor|].
  destruct (bind_int limit) as [e|limit']; simpl; [constructor|].
  destruct (for_rows _ _) as [e|found] eqn:Hrun; [constructor|].
  apply (for_rows_sorted _ row_timestamp sum_timestamp
           (fun a b => cell_leb b a = true) _ _
           (recent_row_timestamp _) Hrun).
  apply sql_limit_sorted.
  apply (order_by_sorted newest_first).
  - intros x y. apply cell_leb_total.
  - intros x y z Hxy Hyz. unfold newest_first in *.
    exact (cell_leb_trans _ _ _ Hyz Hxy).
Qed.

(** X5: [get_recent_charts] returns at most [limit] dicts when [limit] is
    not negative, and never more than the table holds. *)
Theorem get_recent_charts_at_most_limit (db : database) (limit : Z) :
  (0 <= limit)%Z ->
  (Z.of_nat (length (get_recent_charts db limit)) <= limit)%Z /\
  length (get_recent_charts db limit) <= length (charts db).
Proof.
  intros Hlimit. unfold get_recent_charts, get_recent_charts_try.
  destruct (prepare db _) as [e|[]]; simpl; [lia|].
  unfold bind_int. destruct (fits_int64 limit); simpl; [|lia].
  destruct (for_rows _ _) as [e|found] eqn:Hrun; simpl; [lia|].
  apply for_rows_length in Hrun. rewrite Hrun.
  pose proof (sql_limit_length limit (order_by newest_first (charts db))
                Hlimit) as Hle.
  split; [exact Hle|].
  unfold sql_limit. destruct (limit <? 0)%Z.
  - rewrite order_by_length. lia.
  - rewrite length_take, order_by_length. lia.
Qed.

Lemma get_recent_charts_at_most_limit_witness :
  (0 <= 2)%Z /\
  length (charts three_charts) = 3 /\
  (Z.of_nat (length (get_recent_charts three_charts 2)) <= 2)%Z /\
  length (get_recent_charts three_charts 2) <= length (charts three_charts).
Proof.
  split; [lia|]. split; [reflexivity|].
  apply (get_recent_charts_at_most_limit three_charts 2). lia.
Defined.

Lemma for_rows_raises {A B : Type} (f : A -> exn + B) (rows : list A)
    (row : A) (e : exn) :
  row ∈ rows -> f row = inl e -> exists e', for_rows f rows = inl e'.
Proof.
  induction 1 as [row rows|row other rows _ IH]; simpl; intros Hrow.
  - rewrite Hrow. exists e. reflexivity.
  - destruct (f other) as [e'|x]; simpl; [exists e'; reflexivity|].
    destruct (IH Hrow) as [e' ->]. exists e'. reflexivity.
Qed.

Lemma loads_cell_not_json {A : Type} (empty : A) (text : string) :
  text <> EmptyString ->
  loads_cell empty (Some (NotJson text)) = inl JSONDecodeError.
Proof. destruct text; [contradiction|reflexivity]. Qed.

(** X6: one bad cell loses the whole list.  When the [tags] cell of one of
    the selected charts holds text that is not JSON, [json.loads] raises
    inside the loop and [get_recent_charts] returns the empty list, not the
    other charts. *)
Theorem get_recent_charts_lost_to_bad_tags (db : database) (limit : Z)
    (row : chart_row) (text : string) :
  row ∈ charts db ->
  row_tags row = Some (NotJson text) ->
  text <> EmptyString ->
  (limit < 0)%Z \/ (Z.of_nat (length (charts db)) <= limit)%Z ->
  get_recent_charts db limit = [].
Proof.
  intros Hrow Htags Htext Hlimit.
  unfold get_recent_charts, get_recent_charts_try.
  destruct (prepare db _) as [e|[]]; simpl; [reflexivity|].
  unfold bind_int. destruct (fits_int64 limit); simpl; [|reflexivity].
  rewrite sql_limit_whole by (rewrite order_by_length; exact Hlimit).
  destruct (for_rows_raises (recent_row (has_column db "category"))
              (order_by newest_first (charts db)) row JSONDecodeError)
    as [e' ->]; [| |reflexivity].
  - apply (proj2 (order_by_elem newest_first _ _)). exact Hrow.
  - unfold recent_row. rewrite Htags, loads_cell_not_json by exact Htext.
    reflexivity.
Qed.

Lemma get_recent_charts_lost_to_bad_tags_witness :
  bad_tags_row ∈ charts damaged /\
  length (charts damaged) = 3 /\
  get_recent_charts damaged 10 = [].
Proof.
  assert (Hin : bad_tags_row ∈ charts damaged) by (right; right; left).
  split; [exact Hin|]. split; [reflexivity|].
  apply (get_recent_charts_lost_to_bad_tags damaged 10 bad_tags_row
           "weather" Hin eq_refl).
  - discriminate.
  - right. simpl. lia.
Defined.


(** * The store: reading one chart *)

Lemma unique_row (rows : list chart_row) (row : chart_row) :
  NoDup (row_id <$> rows) -> row ∈ rows ->
  filter (fun r => row_id r = row_id row) rows = [row].
Proof.
  induction rows as [|r rows IH]; intros Hdup Hrow.
  - apply elem_of_nil in Hrow. contradiction.
  - rewrite fmap_cons in Hdup. apply NoDup_cons in Hdup as [Hr Hdup].
    rewrite filter_cons. apply elem_of_cons in Hrow as [->|Hrow].
    + rewrite decide_True by reflexivity. f_equal.
      apply filter_none. intros r' Hr' Heq. apply Hr.
      rewrite <- Heq. apply list_elem_of_fmap. exists r'. split; [reflexivity|exact Hr'].
    + rewrite decide_False; [apply IH; assumption|].
      intros Heq. apply Hr. rewrite Heq.
      apply list_elem_of_fmap. exists row. split; [reflexivity|exact Hrow].
Qed.

(** What [get_chart] returns for the one row of an id. *)
Lemma get_chart_of_row (db : database) (row : chart_row) :
  (forall c, c ∈ legacy_columns -> has_column db c = true) ->
  fits_int64 (row_id row) = true ->
  NoDup (row_id <$> charts db) ->
  row ∈ charts db ->
  get_chart db (row_id row) =
  Some {| rec_id := row_id row;
          rec_question := row_question row;
          rec_location := row_location row;
          rec_timestamp := row_timestamp row;
          rec_judgment := row_judgment row;
          rec_confidence := row_confidence row;
          rec_chart_data := (decode_cells row).1;
          rec_notes := row_notes row;
          rec_tags := (decode_cells row).2;
          rec_category :=
            if has_column db "category" then row_category row
            else Some "general" |}.
Proof.
  intros Hcols Hfits Hdup Hrow. unfold get_chart, get_chart_try.
  rewrite prepare_ok.
  2:{ intros c Hc. destruct (has_column db "category") eqn:Hcat;
        simpl in Hc; for_columns Hc; try exact Hcat;
        apply Hcols; column_listed. }
  unfold bind_int. rewrite Hfits. simpl.
  rewrite unique_row by assumption. reflexivity.
Qed.

(** X7: the two JSON cells fall back together.  When the [chart_data] cell
    or the [tags] cell of a chart holds text that is not JSON, [get_chart]
    still returns the chart, with its plain fields intact, but with both
    ['chart_data'] empty and ['tags'] empty, whatever the other cell
    holds. *)
Theorem get_chart_cells_fall_back_together (db : database) (row : chart_row)
    (text : string) :
  (forall c, c ∈ legacy_columns -> has_column db c = true) ->
  fits_int64 (row_id row) = true ->
  NoDup (row_id <$> charts db) ->
  row ∈ charts db ->
  text <> EmptyString ->
  row_chart_data row = Some (NotJson text) \/
  row_tags row = Some (NotJson text) ->
  exists rec,
    get_chart db (row_id row) = Some rec /\
    rec_chart_data rec = empty_result /\
    rec_tags rec = [] /\
    rec_question rec = row_question row /\
    rec_location rec = row_location row /\
    rec_judgment rec = row_judgment row /\
    rec_confidence rec = row_confidence row.
Proof.
  intros Hcols Hfits Hdup Hrow Htext Hbad.
  rewrite (get_chart_of_row db row Hcols Hfits Hdup Hrow).
  eexists. split; [reflexivity|]. simpl.
  assert (Hcells : decode_cells row = (empty_result, [])).
  { unfold decode_cells. destruct Hbad as [Hbad|Hbad]; rewrite Hbad.
    - rewrite loads_cell_not_json by exact Htext. reflexivity.
    - rewrite (loads_cell_not_json [] text Htext).
      destruct (loads_cell empty_result (row_chart_data row)); reflexivity. }
  rewrite Hcells. repeat split.
Qed.

Lemma get_chart_cells_fall_back_together_witness :
  row_tags damaged_row = Some (Json ["weather"]) /\
  row_chart_data damaged_row = Some (NotJson "{oops") /\
  exists rec,
    get_chart damaged (row_id damaged_row) = Some rec /\
    rec_chart_data rec = empty_result /\
    rec_tags rec = [] /\
    rec_question rec = row_question damaged_row /\
    rec_location rec = row_location damaged_row /\
    rec_judgment rec = row_judgment damaged_row /\
    rec_confidence rec = row_confidence damaged_row.
Proof.
  split; [reflexivity|]. split; [reflexivity|].
  apply (get_chart_cells_fall_back_together damaged damaged_row "{oops").
  - intros c Hc. unfold legacy_columns in Hc. for_columns Hc; reflexivity.
  - reflexivity.
  - apply (bool_decide_unpack _). vm_compute. exact I.
  - right. left.
  - discriminate.
  - left. reflexivity.
Defined.

(** X8: the other readers under the old schema.  Where the table lacks the
    [category] column, the dict of [get_chart] and every dict of
    [get_charts_by_date_range] carry the category ["general"]. *)
Theorem legacy_readers_default_category (db : database) :
  has_column db "category" = false ->
  (forall chart_id rec,
     get_chart db chart_id = Some rec -> rec_category rec = Some "general") /\
  (forall start_date end_date,
     Forall (fun s => sum_category s = Some "general")
            (get_charts_by_date_range db start_date end_date)).
Proof.
  intros Hcat. split.
  - intros chart_id rec. unfold get_chart, get_chart_try. rewrite Hcat.
    destruct (prepare db _) as [e|[]]; simpl; [discriminate|].
    destruct (bind_int chart_id) as [e|id']; simpl; [discriminate|].
    destruct (head _) as [row|]; [|discriminate].
    intros [= <-]. reflexivity.
  - intros start_date end_date.
    unfold get_charts_by_date_range, get_charts_by_date_range_try.
    rewrite Hcat. destruct (prepare db _) as [e|[]]; simpl; [constructor|].
    apply Forall_fmap, Forall_forall. intros row _. reflexivity.
Qed.

Lemma legacy_readers_default_category_witness :
  has_column legacy "category" = false /\
  (exists rec, get_chart legacy 1 = Some rec /\
               rec_category rec = Some "general").
Proof.
  split; [reflexivity|].
  eexists. split; [vm_compute; reflexivity|].
  apply (proj1 (legacy_readers_default_category legacy eq_refl) 1%Z).
  vm_compute. reflexivity.
Defined.

(** * The store: writing *)

(** X9: the write path is not schema tolerant.  On a table that lacks the
    [category] column, which the readers accept, [save_chart] raises
    [OperationalError] whatever it is given. *)
Theorem save_chart_fails_on_legacy_table (db : database) (now : datetime)
    (question location : string) (res : result) (notes : string)
    (tags : option (list string)) (category : string) :
  has_column db "category" = false ->
  save_chart db now question location res notes tags category =
  inl OperationalError.
Proof.
  intros Hcat. unfold save_chart, insert_chart.
  rewrite (prepare_missing db _ "category"); [reflexivity| |exact Hcat].
  column_listed.
Qed.

Lemma save_chart_fails_on_legacy_table_witness :
  has_column legacy "category" = false /\
  get_recent_charts legacy 10 <> [] /\
  save_chart legacy noon "Will I get the job?" "London, England" yes_82
             EmptyString None "general" = inl OperationalError.
Proof.
  split; [reflexivity|]. split; [vm_compute; discriminate|].
  apply (save_chart_fails_on_legacy_table legacy noon). reflexivity.
Defined.

(** What a successful [save_chart] returns. *)
Lemma save_chart_inr (db db' : database) (now : datetime)
    (question location : string) (res : result) (notes : string)
    (tags : option (list string)) (category : string) (chart_id : Z) :
  save_chart db now question location res notes tags category =
    inr (db', chart_id) ->
  chart_id = (1 + last_id db)%Z /\
  db' = {| columns := columns db;
           charts := charts db ++
                     [saved_row chart_id now question location res notes
                                tags category];
           sequence := chart_id |}.
Proof.
  unfold save_chart, insert_chart.
  destruct (prepare db _) as [e|[]]; simpl; [discriminate|].
  unfold bind_int. destruct (fits_int64 _); simpl; [|discriminate].
  unfold next_id. destruct (last_id db <? 2 ^ 63 - 1)%Z; simpl;
    [|discriminate].
  intros [= <- <-]. split; [reflexivity|].
  unfold saved_row, json_dumps. destruct tags as [[|t ts]|]; reflexivity.
Qed.

(** X10: ids stay distinct and ordered.  When the ids of the table are
    pairwise distinct and the counter is not behind them, a successful
    [save_chart] returns an id above every id of the table, and the new
    table again has distinct ids with the counter at the new id. *)
Theorem save_chart_keeps_ids_in_order (db db' : database) (now : datetime)
    (question location : string) (res : result) (notes : string)
    (tags : option (list string)) (category : string) (chart_id : Z) :
  ids_in_order db ->
  save_chart db now question location res notes tags category =
    inr (db', chart_id) ->
  (forall row, row ∈ charts db -> (row_id row < chart_id)%Z) /\
  (sequence db < chart_id)%Z /\
  sequence db' = chart_id /\
  ids_in_order db'.
Proof.
  intros [Hdup Hseq] Hsave.
  apply save_chart_inr in Hsave as [Hid ->].
  assert (Habove : forall row, row ∈ charts db -> (row_id row < chart_id)%Z).
  { intros row Hrow. apply last_id_bound in Hrow. lia. }
  split; [exact Habove|]. split; [unfold last_id in Hid; lia|].
  split; [reflexivity|]. split; simpl.
  - rewrite fmap_app. apply NoDup_app. split; [exact Hdup|]. split.
    + intros i Hi Hnew. apply list_elem_of_singleton in Hnew. simpl in Hnew.
      apply list_elem_of_fmap in Hi as (row & -> & Hrow).
      apply Habove in Hrow. lia.
    + apply NoDup_singleton.
  - unfold max_rowid. rewrite fmap_app, foldr_app. simpl.
    assert (Hfold : forall l b, (b <= chart_id)%Z ->
              (forall i, i ∈ l -> (i <= chart_id)%Z) ->
              (foldr Z.max b l <= chart_id)%Z).
    { induction l as [|i l IHl]; simpl; intros b Hb Hl; [exact Hb|].
      apply Z.max_lub; [apply Hl; left|].
      apply IHl; [exact Hb|]. intros j Hj. apply Hl. right. exact Hj. }
    apply Hfold.
    + pose proof (last_id_nonneg db). lia.
    + intros i Hi. apply list_elem_of_fmap in Hi as (row & -> & Hrow).
      apply Habove in Hrow. lia.
Qed.

Lemma save_chart_keeps_ids_in_order_witness :
  ids_in_order three_charts /\
  exists db',
    save_chart three_charts noon "Will it rain?" "Paris" yes_82 EmptyString
               None "general" = inr (db', 4%Z) /\
    ids_in_order db'.
Proof.
  assert (Hids : ids_in_order three_charts).
  { split; [apply (bool_decide_unpack _); vm_compute; exact I|].
    vm_compute. discriminate. }
  split; [exact Hids|].
  destruct (save_chart three_charts noon "Will it rain?" "Paris" yes_82
              EmptyString None "general") as [e|[db' i]] eqn:Hsave;
    [discriminate|].
  assert (Hi : i = 4%Z) by (vm_compute in Hsave; congruence).
  subst i. exists db'. split; [reflexivity|].
  apply (save_chart_keeps_ids_in_order three_charts db' noon "Will it rain?"
           "Paris" yes_82 EmptyString None "general" 4 Hids Hsave).
Defined.

(** X11: saving leaves the other charts as they were.  After a successful
    [save_chart], [get_chart] answers for every id but the new one what it
    answered before. *)
Theorem save_chart_keeps_other_charts (db db' : database) (now : datetime)
    (question location : string) (res : result) (notes : string)
    (tags : option (list string)) (category : string) (chart_id other : Z) :
  save_chart db now question location res notes tags category =
    inr (db', chart_id) ->
  other <> chart_id ->
  get_chart db' other = get_chart db other.
Proof.
  intros Hsave Hother. apply save_chart_inr in Hsave as [_ ->].
  unfold get_chart, get_chart_try, has_column, table_info, prepare,
    has_column, table_info. simpl columns.
  destruct (forallb _ _); simpl; [|reflexivity].
  unfold bind_int. destruct (fits_int64 other); simpl; [|reflexivity].
  rewrite filter_app, filter_cons, decide_False by (simpl; congruence).
  rewrite filter_nil, app_nil_r. reflexivity.
Qed.

Lemma save_chart_keeps_other_charts_witness :
  exists db',
    save_chart three_charts noon "Will it rain?" "Paris" yes_82 EmptyString
               None "general" = inr (db', 4%Z) /\
    get_chart three_charts 2 <> None /\
    get_chart db' 2 = get_chart three_charts 2.
Proof.
  destruct (save_chart three_charts noon "Will it rain?" "Paris" yes_82
              EmptyString None "general") as [e|[db' i]] eqn:Hsave;
    [discriminate|].
  assert (Hi : i = 4%Z) by (vm_compute in Hsave; congruence).
  subst i. exists db'. split; [reflexivity|].
  split; [vm_compute; discriminate|].
  apply (save_chart_keeps_other_charts three_charts db' noon "Will it rain?"
           "Paris" yes_82 EmptyString None "general" 4 2 Hsave).
  lia.
Defined.

(** * The store: the statistics add up *)

Lemma tally_fmap {A K : Type} `{EqDecision K} (f : A -> K) (k : K)
    (l : list A) :
  tally k (f <$> l) = length (filter (fun x => f x = k) l).
Proof.
  unfold tally. induction l as [|x l IH]; [reflexivity|].
  rewrite fmap_cons, !filter_cons.
  destruct (decide (f x = k)); simpl; rewrite IH; reflexivity.
Qed.

Lemma omap_length_le {A B : Type} (f : A -> option B) (l : list A) :
  length (omap f l) <= length l.
Proof.
  induction l as [|x l IH]; [reflexivity|].
  rewrite omap_step. destruct (f x); simpl; lia.
Qed.

Lemma get_statistics_total_judgments (db : database) (now : datetime) :
  has_column db "timestamp" = true ->
  has_column db "judgment" = true ->
  total_judgments (get_statistics db now) =
  length (omap yes_or_no (charts db)).
Proof.
  intros Hts Hj. unfold get_statistics, get_statistics_try.
  rewrite !prepare_ok by (intros c Hc; for_columns Hc; assumption).
  unfold bind_exn. cbv beta iota. cbn [total_judgments].
  apply group_by_count_total.
Qed.

Lemma get_statistics_categories (db : database) (now : datetime) :
  has_column db "timestamp" = true ->
  has_column db "judgment" = true ->
  has_column db "category" = true ->
  categories (get_statistics db now) =
  list_to_map (group_by_count (row_category <$> charts db)).
Proof.
  intros Hts Hj Hcat. unfold get_statistics, get_statistics_try.
  rewrite !prepare_ok by (intros c Hc; for_columns Hc; assumption).
  unfold bind_exn. cbv beta iota. cbn [categories]. rewrite Hcat.
  reflexivity.
Qed.

(** X12: the statistics add up.  On a table with the current columns the
    judged total is the number of charts judged YES plus the number judged
    NO, neither it nor the count of the month exceeds the total, every
    category is mapped to the number of its charts (NULL included), and
    the counts of the categories sum to the total. *)
Theorem statistics_add_up (db : database) (now : datetime) :
  has_column db "timestamp" = true ->
  has_column db "judgment" = true ->
  has_column db "category" = true ->
  let stats := get_statistics db now in
  total_judgments stats =
    count_judgment "YES" db + count_judgment "NO" db /\
  total_judgments stats <= total_charts stats /\
  this_month stats <= total_charts stats /\
  (forall c, default 0 (categories stats !! c) =
             length (filter (fun row => row_category row = c) (charts db))) /\
  map_fold (fun _ count acc => count + acc) 0 (categories stats) =
    total_charts stats.
Proof.
  intros Hts Hj Hcat stats. subst stats.
  rewrite get_statistics_total_judgments, get_statistics_total,
    get_statistics_this_month, get_statistics_categories by assumption.
  split; [apply yes_or_no_length|].
  split; [apply omap_length_le|].
  split; [apply length_filter|].
  split.
  - intros c. rewrite group_by_count_lookup. apply tally_fmap.
  - rewrite group_by_count_total. apply length_fmap.
Qed.

Lemma statistics_add_up_witness :
  has_column three_charts "category" = true /\
  total_charts (get_statistics three_charts noon) = 3 /\
  total_judgments (get_statistics three_charts noon) =
    count_judgment "YES" three_charts + count_judgment "NO" three_charts /\
  total_judgments (get_statistics three_charts noon) <= 3.
Proof.
  split; [reflexivity|]. split; [reflexivity|].
  destruct (statistics_add_up three_charts noon eq_refl eq_refl eq_refl)
    as (Hjudged & Hle & _).
  split; [exact Hjudged|exact Hle].
Defined.

(** * The wheel: cusps, planets and failures *)

Lemma for_each_filter {A : Type} (P : A -> Prop) `{forall x, Decision (P x)}
    (body : A -> painting) (l : list A) :
  (forall x, ~ P x -> body x = emit []) ->
  for_each body l = for_each body (filter P l).
Proof.
  intros Hskip. induction l as [|x l IH]; [reflexivity|].
  rewrite filter_cons. destruct (decide (P x)) as [HP|HP]; cbn [for_each].
  - rewrite IH. reflexivity.
  - rewrite (Hskip x HP), emit_nil_and_then. exact IH.
Qed.

(** X13: planets without a glyph are passed over.  [draw_planets] paints
    what it paints on the planets among the seven it has a glyph for; any
    other entry of [planets] adds nothing and raises nothing, even without
    a longitude. *)
Theorem draw_planets_skips_unrecognized (radius : Q)
    (planets : list (string * planet_data)) :
  draw_planets radius planets =
  draw_planets radius (filter recognized planets).
Proof.
  unfold draw_planets. f_equal. apply for_each_filter.
  intros [name data] Hnot. unfold recognized in Hnot. simpl in Hnot.
  unfold draw_planet. destruct (planet_glyphs name); [|reflexivity].
  exfalso. apply Hnot. eexists. reflexivity.
Qed.

Lemma omap_concat_imap {B : Type} (read : paint_op -> option B)
    (mark : nat -> Q -> B) (g : nat -> Q -> list paint_op) (k : nat)
    (houses : list Q) :
  (forall i cusp, omap read (g i cusp) = [mark (k + i) cusp]) ->
  omap read (concat (imap g houses)) = imap (fun i => mark (k + i)) houses.
Proof.
  revert g k. induction houses as [|cusp houses IH]; intros g k Hg;
    [reflexivity|].
  cbn [imap concat]. rewrite omap_app, Hg. cbn [app]. f_equal.
  rewrite (IH (g ∘ S) (S k)).
  - apply imap_ext. intros i x _. simpl. f_equal. lia.
  - intros i x. simpl. rewrite Hg. f_equal. f_equal. lia.
Qed.

Lemma imap_numbers {A : Type} (k : nat) (l : list A) :
  imap (fun i (_ : A) => k + i + 1) l = seq (k + 1) (length l).
Proof.
  revert k. induction l as [|x l IH]; intros k; [reflexivity|].
  cbn [imap length seq]. f_equal; [lia|].
  replace (S (k + 1)) with (S k + 1) by lia. rewrite <- (IH (S k)).
  apply imap_ext. intros i y _. simpl. lia.
Qed.

(** X14: one ray and one number per cusp.  For any list of cusps, twelve or
    not, [draw_house_cusps] draws from the centre one ray per cusp, at the
    cusp less 90 degrees and in the order of the list, and writes the
    numbers 1, 2, ... up to the number of cusps. *)
Theorem draw_house_cusps_one_ray_per_cusp (radius : Q) (houses : list Q) :
  omap ray_angle (draw_house_cusps radius houses) =
    (fun cusp => (cusp - 90)%Q) <$> houses /\
  omap house_label (draw_house_cusps radius houses) =
    seq 1 (length houses).
Proof.
  unfold draw_house_cusps. split.
  - rewrite omap_step. cbn [ray_angle].
    rewrite (omap_concat_imap ray_angle (fun _ cusp => (cusp - 90)%Q) _ 0)
      by reflexivity.
    clear. induction houses as [|c l IH]; [reflexivity|].
    cbn [imap]. rewrite fmap_cons. f_equal. exact IH.
  - rewrite omap_step. cbn [house_label].
    rewrite (omap_concat_imap house_label (fun i _ => i + 1) _ 0)
      by reflexivity.
    apply (imap_numbers 0).
Qed.

Lemma and_then_snd_ok (p q : painting) :
  p.2 = None -> (p >> q).2 = q.2.
Proof. destruct p as [ops [e|]]; simpl; [discriminate|reflexivity]. Qed.

Lemma and_then_snd_raised (p q : painting) (e : exn) :
  p.2 = Some e -> (p >> q).2 = Some e.
Proof. destruct p as [ops [e'|]]; simpl; [trivial|discriminate]. Qed.

Lemma for_each_raises_at {A : Type} (body : A -> painting) (l : list A)
    (x : A) (e : exn) :
  x ∈ l -> (body x).2 = Some e -> exists e', (for_each body l).2 = Some e'.
Proof.
  induction 1 as [x l|x y l _ IH]; cbn [for_each]; intros Hx.
  - exists e. apply and_then_snd_raised. exact Hx.
  - destruct (body y) as [ops [e'|]] eqn:Hy.
    + exists e'. reflexivity.
    + destruct (IH Hx) as [e' He']. exists e'.
      rewrite and_then_snd_ok by reflexivity. exact He'.
Qed.

Lemma draw_planet_raises (radius : Q) (name : string) (data : planet_data) :
  is_Some (planet_glyphs name) -> longitude data = None ->
  (draw_planet radius (name, data)).2 = Some (KeyError "longitude").
Proof.
  intros [glyph Hglyph] Hlon. unfold draw_planet. rewrite Hglyph, Hlon.
  reflexivity.
Qed.

(** The only exception of a turn of [draw_planets] is the [KeyError] of
    the longitude. *)
Lemma draw_planet_only_raises (radius : Q) (entry : string * planet_data)
    (e : exn) :
  (draw_planet radius entry).2 = Some e -> e = KeyError "longitude".
Proof.
  destruct entry as [name data]. unfold draw_planet.
  destruct (planet_glyphs name); [|discriminate].
  destruct (longitude data); [discriminate|].
  intros [= <-]. reflexivity.
Qed.

Lemma for_each_raised_by {A : Type} (body : A -> painting) (l : list A)
    (e : exn) :
  (for_each body l).2 = Some e -> exists x, x ∈ l /\ (body x).2 = Some e.
Proof.
  induction l as [|y l IH]; cbn [for_each]; [discriminate|].
  destruct (body y) as [ops [e'|]] eqn:Hy.
  - intros [= <-]. exists y. split; [left|]. rewrite Hy. reflexivity.
  - rewrite and_then_snd_ok by reflexivity. intros He.
    destruct (IH He) as (x & Hx & Hraised).
    exists x. split; [right; exact Hx|exact Hraised].
Qed.

(** X15: a planet without a longitude stops the planets.  When one of the
    planets [draw_planets] has a glyph for comes without a ['longitude'],
    [draw_planets] raises the [KeyError] of that key and no other
    exception, having set the font first; without such a planet it raises
    nothing. *)
Theorem draw_planets_raises_without_longitude (radius : Q)
    (listed : list (string * planet_data)) :
  (forall name data,
     (name, data) ∈ listed ->
     is_Some (planet_glyphs name) ->
     longitude data = None ->
     exists painted,
       draw_planets radius listed =
       (SetFont "Arial" 14 true :: painted, Some (KeyError "longitude"))) /\
  ((forall name data,
      (name, data) ∈ listed ->
      is_Some (planet_glyphs name) ->
      is_Some (longitude data)) ->
   (draw_planets radius listed).2 = None).
Proof.
  split.
  - intros name data Hin Hglyph Hlon.
    destruct (for_each_raises_at (draw_planet radius) listed (name, data)
                (KeyError "longitude") Hin
                (draw_planet_raises radius name data Hglyph Hlon)) as [e He].
    destruct (for_each_raised_by _ _ _ He) as (entry & _ & Hentry).
    apply draw_planet_only_raises in Hentry. subst e.
    unfold draw_planets.
    destruct (for_each (draw_planet radius) listed) as [ops raised].
    cbn [snd] in He. subst raised. exists ops. reflexivity.
  - intros Hall. unfold draw_planets.
    rewrite and_then_snd_ok by reflexivity.
    destruct (for_each (draw_planet radius) listed).2 as [e|] eqn:He;
      [|reflexivity].
    destruct (for_each_raised_by _ _ _ He) as ([name data] & Hin & Hentry).
    exfalso. unfold draw_planet in Hentry.
    destruct (planet_glyphs name) as [glyph|] eqn:Hglyph; [|discriminate].
    assert (Hknown : is_Some (planet_glyphs name))
      by (rewrite Hglyph; eexists; reflexivity).
    destruct (Hall name data Hin Hknown) as [lon Hlon].
    rewrite Hlon in Hentry. discriminate.
Qed.

Lemma draw_planets_raises_without_longitude_witness :
  exists painted,
    draw_planets 100 [("Moon", {| longitude := Some 30%Q |});
                      ("Sun", {| longitude := None |})] =
    (SetFont "Arial" 14 true :: painted, Some (KeyError "longitude")).
Proof.
  apply (proj1 (draw_planets_raises_without_longitude 100
                  [("Moon", {| longitude := Some 30%Q |});
                   ("Sun", {| longitude := None |})])
           "Sun" {| longitude := None |}).
  - right. left.
  - eexists. reflexivity.
  - reflexivity.
Defined.

Lemma draw_aspect_without_planets (radius : Q) (a : aspect) :
  (applying a = Some true -> has_aspect_keys a) ->
  draw_aspect radius [] a = emit [].
Proof.
  intros Hkeys. unfold draw_aspect.
  destruct (applying a) as [[|]|]; try reflexivity.
  destruct (Hkeys eq_refl) as ([n1 ->] & [n2 ->] & [kind ->]). reflexivity.
Qed.

(** X16: no planets, no chords.  When [draw_aspects] is given no planets,
    every aspect is skipped (an applying one must carry its three keys):
    nothing is painted for the aspects and nothing is raised, whatever the
    radius. *)
Theorem aspects_without_planets_draw_nothing (listed : list aspect)
    (radius : Q) :
  (forall a, a ∈ listed -> applying a = Some true -> has_aspect_keys a) ->
  draw_aspects radius listed [] = emit [].
Proof.
  intros Hkeys. unfold draw_aspects.
  induction listed as [|a rest IH]; [reflexivity|]. cbn [for_each].
  rewrite draw_aspect_without_planets by (apply Hkeys; left).
  rewrite emit_nil_and_then. apply IH.
  intros b Hb. apply Hkeys. right. exact Hb.
Qed.

Lemma aspects_without_planets_draw_nothing_witness :
  has_aspect_keys applying_square /\
  draw_aspects 100 [applying_square; separating_trine] [] = emit [].
Proof.
  assert (Hkeys : has_aspect_keys applying_square)
    by (repeat split; eexists; reflexivity).
  split; [exact Hkeys|].
  apply (aspects_without_planets_draw_nothing
           [applying_square; separating_trine] 100).
  intros a Hin Happ. apply elem_of_cons in Hin as [->|Hin]; [exact Hkeys|].
  apply list_elem_of_singleton in Hin as ->. discriminate.
Defined.

(** * The notebook *)

Import Notebook.

Lemma for_rows_all {A B : Type} (f : A -> exn + B) (rows : list A) :
  (forall row, row ∈ rows -> exists x, f row = inr x) ->
  exists found,
    for_rows f rows = inr found /\
    forall row x, row ∈ rows -> f row = inr x -> x ∈ found.
Proof.
  induction rows as [|row rows IH]; intros Hall; simpl.
  - exists []. split; [reflexivity|]. intros row x Hrow.
    apply elem_of_nil in Hrow. contradiction.
  - destruct (Hall row) as [x Hx]; [left|]. rewrite Hx. simpl.
    destruct IH as (found & -> & Hfound).
    { intros r Hr. apply Hall. right. exact Hr. }
    simpl. exists (x :: found). split; [reflexivity|].
    intros r y Hr Hy. apply elem_of_cons in Hr as [->|Hr].
    + rewrite Hx in Hy. injection Hy as <-. left.
    + right. exact (Hfound r y Hr Hy).
Qed.

Lemma save_notebook_entry_accepted (nb : table) (now : datetime)
    (title content category : string) (tags : option (list string))
    (chart_id : option Z) :
  (last_entry_id nb < 2 ^ 63 - 1)%Z ->
  (forall z, chart_id = Some z -> fits_int64 z = true) ->
  save_notebook_entry nb now title content category tags chart_id =
  inr ({| entries := entries nb ++
            [ {| entry_id := (1 + last_entry_id nb)%Z;
                 entry_title := title;
                 entry_content := Some content;
                 entry_category := Some category;
                 entry_tags := Some (Json (default [] tags));
                 entry_created_date := Some (isoformat now);
                 entry_modified_date := Some (isoformat now);
                 entry_chart_id := chart_id |} ];
          entry_sequence := (1 + last_entry_id nb)%Z |},
       (1 + last_entry_id nb)%Z).
Proof.
  intros Hroom Hfits. unfold save_notebook_entry.
  assert (Hbind : bind_optional_int chart_id = inr chart_id).
  { destruct chart_id as [z|]; [|reflexivity]. simpl.
    unfold bind_int. rewrite (Hfits z eq_refl). reflexivity. }
  rewrite Hbind. simpl. unfold next_entry_id.
  rewrite (proj2 (Z.ltb_lt _ _) Hroom). simpl.
  unfold json_dumps. destruct tags as [[|t ts]|]; reflexivity.
Qed.

(** X17: a note saved is a note listed.  With an id left to give and the
    [tags] of the stored entries decodable, [save_notebook_entry] succeeds
    and the unfiltered [get_notebook_entries] then lists the new entry with
    its title, content, category, tags and chart reference as given, and
    with creation and modification dates both at the instant of the
    save. *)
Theorem save_notebook_entry_is_listed (nb : table) (now : datetime)
    (title content category : string) (tags : option (list string))
    (chart_id : option Z) :
  (last_entry_id nb < 2 ^ 63 - 1)%Z ->
  (forall z, chart_id = Some z -> fits_int64 z = true) ->
  (forall row, row ∈ entries nb -> decodable row) ->
  exists nb' id found,
    save_notebook_entry nb now title content category tags chart_id =
      inr (nb', id) /\
    get_notebook_entries nb' None = inr found /\
    saved_entry id now title content category tags chart_id ∈ found /\
    length found = S (length (entries nb)).
Proof.
  intros Hroom Hfits Hdec.
  rewrite (save_notebook_entry_accepted nb now title content category tags
             chart_id Hroom Hfits).
  eexists _, _. unfold get_notebook_entries. cbn [category_filter entries].
  set (row := {| entry_id := (1 + last_entry_id nb)%Z;
                 entry_title := title |}).
  destruct (for_rows_all entry_of_row
              (order_by last_modified_first (entries nb ++ [row])))
    as (found & Hrun & Hfound).
  { intros r Hr. apply (proj1 (order_by_elem _ _ _)) in Hr.
    apply elem_of_app in Hr as [Hr|Hr].
    - destruct (Hdec r Hr) as [t Ht]. unfold entry_of_row. rewrite Ht.
      eexists. reflexivity.
    - apply list_elem_of_singleton in Hr as ->. eexists. reflexivity. }
  exists found. split; [reflexivity|]. split; [exact Hrun|]. split.
  - apply (Hfound row); [|reflexivity].
    apply (proj2 (order_by_elem _ _ _)), elem_of_app. right. left.
  - apply for_rows_length in Hrun. rewrite Hrun.
    rewrite order_by_length, length_app. simpl. lia.
Qed.

Lemma save_notebook_entry_is_listed_witness :
  (forall row, row ∈ entries two_notes -> decodable row) /\
  exists nb' id found,
    save_notebook_entry two_notes noon "Third" "Text" "case" (Some ["job"])
                        (Some 1%Z) = inr (nb', id) /\
    get_notebook_entries nb' None = inr found /\
    saved_entry id noon "Third" "Text" "case" (Some ["job"]) (Some 1%Z)
      ∈ found /\
    length found = S (length (entries two_notes)).
Proof.
  assert (Hdec : forall row, row ∈ entries two_notes -> decodable row).
  { intros row Hrow. apply elem_of_cons in Hrow as [->|Hrow];
      [eexists; reflexivity|].
    apply list_elem_of_singleton in Hrow as ->. eexists. reflexivity. }
  split; [exact Hdec|].
  apply (save_notebook_entry_is_listed two_notes noon "Third" "Text" "case"
           (Some ["job"]) (Some 1%Z)).
  - vm_compute. reflexivity.
  - intros z [= <-]. reflexivity.
  - exact Hdec.
Defined.

Lemma entry_of_row_category (row : entry_row) (e : entry) :
  entry_of_row row = inr e -> note_category e = entry_category row.
Proof.
  unfold entry_of_row. destruct (loads_cell [] (entry_tags row)); simpl;
    [discriminate|]. intros [= <-]. reflexivity.
Qed.

(** X18: the category filter.  A category that is not the empty text
    selects exactly the entries of that category; the empty text selects
    like no category at all: every entry. *)
Theorem get_notebook_entries_by_category (nb : table) :
  (forall c found,
     c <> EmptyString ->
     get_notebook_entries nb (Some c) = inr found ->
     Forall (fun e => note_category e = Some c) found /\
     length found =
       length (filter (fun row => entry_category row = Some c)
                      (entries nb))) /\
  get_notebook_entries nb (Some EmptyString) = get_notebook_entries nb None.
Proof.
  split; [|reflexivity].
  intros c found Hc. unfold get_notebook_entries, category_filter.
  rewrite bool_decide_eq_false_2 by exact Hc. intros Hrun. split.
  - apply Forall_forall. intros e He.
    destruct (for_rows_inr _ _ _ _ Hrun He) as (row & Hrow & Hfrom).
    rewrite (entry_of_row_category row e Hfrom).
    apply (proj1 (order_by_elem _ _ _)) in Hrow.
    apply list_elem_of_filter in Hrow as [Hcat _]. exact Hcat.
  - apply for_rows_length in Hrun. rewrite Hrun. apply order_by_length.
Qed.

Lemma get_notebook_entries_by_category_witness :
  exists found,
    get_notebook_entries two_notes (Some "case") = inr found /\
    length found = 1 /\
    Forall (fun e => note_category e = Some "case") found.
Proof.
  eexists. split; [vm_compute; reflexivity|]. split; [reflexivity|].
  apply (proj1 (get_notebook_entries_by_category two_notes) "case").
  - discriminate.
  - vm_compute. reflexivity.
Defined.

Lemma notebook_raises_at (nb : table) (row : entry_row)
    (text : string) :
  row ∈ entries nb ->
  entry_tags row = Some (NotJson text) ->
  text <> EmptyString ->
  get_notebook_entries nb None = inl JSONDecodeError.
Proof.
  intros Hrow Htags Htext. unfold get_notebook_entries. simpl.
  destruct (for_rows_raises entry_of_row
              (order_by last_modified_first (entries nb)) row
              JSONDecodeError) as [e He].
  - apply (proj2 (order_by_elem _ _ _)). exact Hrow.
  - unfold entry_of_row. rewrite Htags, loads_cell_not_json by exact Htext.
    reflexivity.
  - rewrite He. f_equal.
    apply for_rows_inl in He as (r & _ & Hr). unfold entry_of_row in Hr.
    destruct (loads_cell [] (entry_tags r)) as [e'|t] eqn:Hcell; simpl in Hr;
      [|discriminate].
    injection Hr as <-. exact (loads_cell_raises _ _ _ Hcell).
Qed.

(** X19: the notebook has no [try].  When the [tags] cell of one entry
    holds text that is not JSON, the unfiltered [get_notebook_entries]
    raises [JSONDecodeError] to its caller (where [get_recent_charts] on
    such a row returns an empty list), and [load_notebook_entries] with the
    filter on all categories passes the exception on before it has
    cleared the list. *)
Theorem get_notebook_entries_raises (nb : table) (row : entry_row)
    (text : string) :
  row ∈ entries nb ->
  entry_tags row = Some (NotJson text) ->
  text <> EmptyString ->
  get_notebook_entries nb None = inl JSONDecodeError /\
  forall lower v,
    load_notebook_entries lower nb v "All" =
    (v, Some (StoreError JSONDecodeError)).
Proof.
  intros Hrow Htags Htext.
  pose proof (notebook_raises_at nb row text Hrow Htags Htext)
    as Hraises.
  split; [exact Hraises|]. intros lower v. unfold load_notebook_entries.
  rewrite bool_decide_eq_true_2 by reflexivity. rewrite Hraises.
  reflexivity.
Qed.

Lemma get_notebook_entries_raises_witness :
  torn_note ∈ entries torn_notebook /\
  get_notebook_entries torn_notebook None = inl JSONDecodeError /\
  forall lower v,
    load_notebook_entries lower torn_notebook v "All" =
    (v, Some (StoreError JSONDecodeError)).
Proof.
  assert (Hin : torn_note ∈ entries torn_notebook) by (right; right; left).
  split; [exact Hin|].
  apply (get_notebook_entries_raises torn_notebook torn_note "moon, job" Hin
           eq_refl).
  discriminate.
Defined.

(** * The notebook view *)

Section NotebookViewFacts.

Variable strip lower : string -> string.
Variable split_commas : string -> list string.

(** What clearing the list does to the current entry. *)
Lemma clear_list_selection (v : view) :
  current_entry_id (clear_list v) =
  match selected_items (entry_list v) with
  | [] => current_entry_id v
  | _ :: _ => None
  end.
Proof.
  unfold clear_list. destruct (selected_items (entry_list v)); reflexivity.
Qed.

(** A reload never sets a current entry: it keeps the one there is or
    clears it. *)
Lemma load_notebook_entries_selection (nb : table) (v : view)
    (text : string) :
  current_entry_id (load_notebook_entries lower nb v text).1 =
    current_entry_id v \/
  current_entry_id (load_notebook_entries lower nb v text).1 = None.
Proof.
  unfold load_notebook_entries.
  destruct (get_notebook_entries nb _) as [e|found]; [left; reflexivity|].
  destruct (add_items found). cbn [fst current_entry_id].
  rewrite clear_list_selection.
  destruct (selected_items (entry_list v)); [left|right]; reflexivity.
Qed.

(** A reload that raises nothing has cleared the list. *)
Lemma load_notebook_entries_done (nb : table) (v v' : view) (text : string) :
  load_notebook_entries lower nb v text = (v', None) ->
  current_entry_id v' = current_entry_id (clear_list v) /\
  selected_items (entry_list v') = [].
Proof.
  unfold load_notebook_entries.
  destruct (get_notebook_entries nb _) as [e|found]; [discriminate|].
  destruct (add_items found). intros [= <- _]. split; reflexivity.
Qed.

Lemma update_entry_edits (nb nb' : table) (now : datetime) (id : Z)
    (title content category : string) (tags : list string) :
  update_entry nb now id title content category tags = inr nb' ->
  entry_sequence nb' = entry_sequence nb /\
  Forall2 (edited_from id title now) (entries nb) (entries nb').
Proof.
  unfold update_entry, bind_int. destruct (fits_int64 id); simpl;
    [|discriminate].
  intros [= <-]. split; [reflexivity|]. simpl.
  induction (entries nb) as [|row rows IH]; [constructor|].
  rewrite fmap_cons. constructor; [|exact IH].
  unfold edited_from. destruct (bool_decide_reflect (entry_id row = id));
    simpl; repeat split; try reflexivity; try contradiction;
    try (intros; contradiction).
Qed.

(** X20: editing a note.  With a title that is not blank and a current
    entry, [save_entry] ends on the success or the error dialog, never on
    the validation warning, and in either case the table has the same
    entries in the same order with their ids, creation dates and chart
    references kept: the current one carries the new title and the instant
    of the save as its modification date, the others are as they were.
    After a save that succeeded no item is selected, and the editor still
    has its current entry only if no item was selected before: where one
    was, clearing the list has cleared [current_entry_id] too. *)
Theorem save_entry_edits_in_place (nb : table) (v : view) (now : datetime)
    (title_edit content_edit entry_category_text tags_edit : string)
    (category_filter_text : string) (id : Z) :
  strip title_edit <> EmptyString ->
  selected_id v = Some id ->
  fits_int64 id = true ->
  exists nb' v' shown,
    save_entry strip lower split_commas nb v now title_edit content_edit
               entry_category_text tags_edit category_filter_text =
      (nb', v', shown) /\
    shown <> ValidationWarning /\
    entry_sequence nb' = entry_sequence nb /\
    Forall2 (edited_from id (strip title_edit) now) (entries nb)
            (entries nb') /\
    (shown = SuccessDialog ->
     selected_items (entry_list v') = [] /\
     current_entry_id v' =
       match selected_items (entry_list v) with
       | [] => current_entry_id v
       | _ :: _ => None
       end).
Proof.
  intros Htitle Hsel Hfits. unfold save_entry.
  rewrite bool_decide_eq_false_2 by exact Htitle. rewrite Hsel.
  destruct (update_entry nb now id (strip title_edit) content_edit
              (lower entry_category_text)
              (parse_tags strip split_commas tags_edit))
    as [e|nb'] eqn:Hupdate.
  { unfold update_entry, bind_int in Hupdate. rewrite Hfits in Hupdate.
    discriminate. }
  simpl. apply update_entry_edits in Hupdate as [Hseq Hrows].
  destruct (load_notebook_entries lower nb' v category_filter_text)
    as [v' [failure|]] eqn:Hload;
    eexists _, _, _; (split; [reflexivity|]);
    (split; [discriminate|]); (split; [exact Hseq|]);
    (split; [exact Hrows|]).
  - discriminate.
  - intros _. apply load_notebook_entries_done in Hload as [Hid Hnone].
    split; [exact Hnone|]. rewrite Hid. apply clear_list_selection.
Qed.

(** X21: a save reported as failed.  When one stored entry has [tags] that
    are not JSON and the filter shows all categories, saving a new note
    with a title writes the note and sets it as the current entry, and
    then ends on the error dialog with [JSONDecodeError]: the reload of
    the list raised after the commit, and the list is as it was. *)
Theorem save_entry_written_yet_reported_failed (nb : table) (v : view)
    (now : datetime)
    (title_edit content_edit entry_category_text tags_edit : string)
    (row : entry_row) (text : string) :
  strip title_edit <> EmptyString ->
  selected_id v = None ->
  (last_entry_id nb < 2 ^ 63 - 1)%Z ->
  row ∈ entries nb ->
  entry_tags row = Some (NotJson text) ->
  text <> EmptyString ->
  exists nb' id,
    save_notebook_entry nb now (strip title_edit) content_edit
      (lower entry_category_text)
      (Some (parse_tags strip split_commas tags_edit)) None = inr (nb', id) /\
    length (entries nb') = S (length (entries nb)) /\
    save_entry strip lower split_commas nb v now title_edit content_edit
               entry_category_text tags_edit "All" =
      (nb', {| current_entry_id := Some id; entry_list := entry_list v |},
       ErrorDialog (StoreError JSONDecodeError)).
Proof.
  intros Htitle Hsel Hroom Hrow Htags Htext. unfold save_entry.
  rewrite bool_decide_eq_false_2 by exact Htitle. rewrite Hsel.
  rewrite (save_notebook_entry_accepted nb now _ _ _ _ None Hroom)
    by discriminate.
  eexists _, _. split; [reflexivity|]. split.
  { simpl. rewrite length_app. simpl. lia. }
  cbn [bind_exn fst snd]. unfold load_notebook_entries.
  rewrite bool_decide_eq_true_2 by reflexivity.
  erewrite (notebook_raises_at _ row text); [reflexivity| |
    exact Htags|exact Htext].
  simpl. apply elem_of_app. left. exact Hrow.
Qed.

(** X22: deleting a note.  Confirmed, with an entry selected,
    [delete_entry] leaves exactly the entries with another id, in their
    order, keeps the counter, and clears the selection, whatever the
    reload does; declined, it changes nothing and shows nothing. *)
Theorem delete_entry_removes_the_selected (nb : table) (v : view)
    (category_filter_text : string) (id : Z) :
  selected_id v = Some id ->
  fits_int64 id = true ->
  (exists nb' v' shown,
     delete_entry lower nb v true category_filter_text = (nb', v', shown) /\
     entries nb' = filter (fun row => entry_id row <> id) (entries nb) /\
     entry_sequence nb' = entry_sequence nb /\
     current_entry_id v' = None /\
     shown <> NoDialog) /\
  delete_entry lower nb v false category_filter_text = (nb, v, NoDialog).
Proof.
  intros Hsel Hfits. unfold delete_entry. rewrite Hsel. split;
    [|reflexivity].
  unfold delete_row, bind_int. rewrite Hfits. simpl.
  set (nb' := {| entries := _ |}).
  assert (Hkept : current_entry_id
                    (load_notebook_entries lower nb' (clear_editor v)
                       category_filter_text).1 = None).
  { destruct (load_notebook_entries_selection nb' (clear_editor v)
                category_filter_text) as [Hsame|Hnone]; [|exact Hnone].
    rewrite Hsame. reflexivity. }
  destruct (load_notebook_entries lower nb' (clear_editor v)
              category_filter_text) as [v' [failure|]]; simpl in Hkept;
    eexists _, _, _; (split; [reflexivity|]); repeat split;
    try discriminate; assumption.
Qed.

End NotebookViewFacts.

Lemma save_entry_edits_in_place_witness :
  exists nb' v' shown,
    save_entry as_is as_is unsplit two_notes second_selected noon
               "Job" "Text" "case" "job" "All" = (nb', v', shown) /\
    shown <> ValidationWarning /\
    entry_sequence nb' = entry_sequence two_notes /\
    Forall2 (edited_from 2 (as_is "Job") noon) (entries two_notes)
            (entries nb') /\
    (shown = SuccessDialog ->
     selected_items (entry_list v') = [] /\
     current_entry_id v' =
       match selected_items (entry_list second_selected) with
       | [] => current_entry_id second_selected
       | _ :: _ => None
       end).
Proof.
  apply (save_entry_edits_in_place as_is as_is unsplit two_notes
           second_selected noon "Job" "Text" "case" "job" "All" 2).
  - discriminate.
  - reflexivity.
  - reflexivity.
Defined.

Lemma save_entry_written_yet_reported_failed_witness :
  exists nb' id,
    save_notebook_entry torn_notebook noon (as_is "Fourth") "Text"
      (as_is "case") (Some (parse_tags as_is unsplit "job")) None =
      inr (nb', id) /\
    length (entries nb') = S (length (entries torn_notebook)) /\
    save_entry as_is as_is unsplit torn_notebook blank_view noon
               "Fourth" "Text" "case" "job" "All" =
      (nb', {| current_entry_id := Some id;
               entry_list := entry_list blank_view |},
       ErrorDialog (StoreError JSONDecodeError)).
Proof.
  apply (save_entry_written_yet_reported_failed as_is as_is unsplit
           torn_notebook blank_view noon "Fourth" "Text" "case" "job"
           torn_note "moon, job").
  - discriminate.
  - reflexivity.
  - vm_compute. reflexivity.
  - right. right. left.
  - reflexivity.
  - discriminate.
Defined.

Lemma delete_entry_removes_the_selected_witness :
  (exists nb' v' shown,
     delete_entry as_is two_notes second_selected true "All" =
       (nb', v', shown) /\
     entries nb' =
       filter (fun row => entry_id row <> 2%Z) (entries two_notes) /\
     entry_sequence nb' = entry_sequence two_notes /\
     current_entry_id v' = None /\
     shown <> NoDialog) /\
  delete_entry as_is two_notes second_selected false "All" =
    (two_notes, second_selected, NoDialog).
Proof.
  apply (delete_entry_removes_the_selected as_is two_notes second_selected
           "All" 2); reflexivity.
Defined.

(** * Clearing the store *)

(** X23: ids are not given twice.  After a confirmed [clear_charts] both
    tables are empty, and with the counters not behind the ids the next
    [save_chart] and the next [save_notebook_entry] that succeed return an
    id above every id the tables held before: cleared ids are not
    reused. *)
Theorem clear_charts_keeps_the_counters (db : database) (nb : table) :
  ids_in_order db ->
  entry_ids_in_order nb ->
  charts (clear_charts db nb true).1 = [] /\
  entries (clear_charts db nb true).2 = [] /\
  (forall now question location res notes tags category db' chart_id,
     save_chart (clear_charts db nb true).1 now question location res notes
                tags category = inr (db', chart_id) ->
     chart_id = (1 + sequence db)%Z /\
     forall row, row ∈ charts db -> (row_id row < chart_id)%Z) /\
  (forall now title content category tags chart_id nb' id,
     save_notebook_entry (clear_charts db nb true).2 now title content
                         category tags chart_id = inr (nb', id) ->
     forall row, row ∈ entries nb -> (entry_id row < id)%Z).
Proof.
  intros [_ Hseq] Hnb. split; [reflexivity|]. split; [reflexivity|]. split.
  - intros now question location res notes tags category db' chart_id Hsave.
    apply save_chart_inr in Hsave as [-> _].
    pose proof (max_rowid_nonneg (charts db)) as Hnonneg.
    assert (Hlast : last_id (clear_charts db nb true).1 = sequence db).
    { unfold last_id, max_rowid. simpl. lia. }
    rewrite Hlast. split; [reflexivity|].
    intros row Hrow. apply max_rowid_bound in Hrow. lia.
  - intros now title content category tags chart_id nb' id.
    unfold save_notebook_entry.
    destruct (bind_optional_int chart_id) as [e|c]; simpl; [discriminate|].
    unfold next_entry_id, last_entry_id. simpl.
    destruct (_ <? _)%Z; simpl; [|discriminate].
    intros [= _ <-] row Hrow.
    assert (Hle : (entry_id row
                   <= foldr Z.max 0%Z (entry_id <$> entries nb))%Z).
    { clear -Hrow. induction Hrow as [row rows|row r rows _ IH];
        rewrite fmap_cons; simpl foldr; lia. }
    unfold entry_ids_in_order in Hnb. lia.
Qed.

Lemma clear_charts_keeps_the_counters_witness :
  charts (clear_charts three_charts two_notes true).1 = [] /\
  entries (clear_charts three_charts two_notes true).2 = [] /\
  (forall now question location res notes tags category db' chart_id,
     save_chart (clear_charts three_charts two_notes true).1 now question
                location res notes tags category = inr (db', chart_id) ->
     chart_id = (1 + sequence three_charts)%Z /\
     forall row, row ∈ charts three_charts -> (row_id row < chart_id)%Z) /\
  (forall now title content category tags chart_id nb' id,
     save_notebook_entry (clear_charts three_charts two_notes true).2 now
                         title content category tags chart_id =
       inr (nb', id) ->
     forall row, row ∈ entries two_notes -> (entry_id row < id)%Z).
Proof.
  apply (clear_charts_keeps_the_counters three_charts two_notes).
  - split; [apply (bool_decide_unpack _); vm_compute; exact I|].
    vm_compute. discriminate.
  - vm_compute. discriminate.
Defined.

(** * The statistics of a period *)

Lemma disjoint_filters_length {A : Type} (P R : A -> Prop)
    `{forall x, Decision (P x)} `{forall x, Decision (R x)} (l : list A) :
  (forall x, P x -> R x -> False) ->
  length (filter P l) + length (filter R l) <= length l.
Proof.
  intros Hdisjoint. induction l as [|x l IH]; [reflexivity|].
  rewrite !filter_cons.
  destruct (decide (P x)) as [HP|HP], (decide (R x)) as [HR|HR]; simpl;
    [destruct (Hdisjoint x HP HR)|lia..].
Qed.

Lemma sum_between (lo hi : Z) (l : list Z) :
  (forall z, z ∈ l -> (lo <= z <= hi)%Z) ->
  (lo * Z.of_nat (length l) <= foldr Z.add 0%Z l
   <= hi * Z.of_nat (length l))%Z.
Proof.
  induction l as [|z l IH]; intros Hall; [simpl; lia|].
  assert (Hz : (lo <= z <= hi)%Z) by (apply Hall; left).
  assert (Hl : forall y, y ∈ l -> (lo <= y <= hi)%Z)
    by (intros y Hy; apply Hall; right; exact Hy).
  specialize (IH Hl). cbn [foldr length]. lia.
Qed.

Lemma mean_between (lo hi : Z) (l : list Z) :
  l <> [] ->
  (forall z, z ∈ l -> (lo <= z <= hi)%Z) ->
  (inject_Z lo
   <= inject_Z (foldr Z.add 0%Z l) / inject_Z (Z.of_nat (length l)))%Q /\
  (inject_Z (foldr Z.add 0%Z l) / inject_Z (Z.of_nat (length l))
   <= inject_Z hi)%Q.
Proof.
  intros Hne Hall. destruct (sum_between lo hi l Hall) as [Hlo Hhi].
  assert (Hpos : (0 < inject_Z (Z.of_nat (length l)))%Q).
  { change 0%Q with (inject_Z 0). rewrite <- Zlt_Qlt.
    destruct l; [contradiction|simpl; lia]. }
  split.
  - apply Qle_shift_div_l; [exact Hpos|].
    rewrite <- inject_Z_mult, <- Zle_Qle. exact Hlo.
  - apply Qle_shift_div_r; [exact Hpos|].
    rewrite <- inject_Z_mult, <- Zle_Qle. exact Hhi.
Qed.

(** X24: the figures of a period hold together.  In
    [update_timeline_stats] the YES and NO counts together never exceed
    the total, the average is 0 when no chart has a confidence, and
    otherwise it lies between any bounds that hold for every confidence
    there is: charts without one do not pull it down. *)
Theorem update_timeline_stats_bounds (listed : list chart_summary)
    (lo hi : Z) :
  (forall c z, c ∈ listed -> sum_confidence c = Some z -> (lo <= z <= hi)%Z) ->
  let shown := Timeline.update_timeline_stats listed in
  Timeline.total shown = length listed /\
  Timeline.yes_count shown + Timeline.no_count shown <= Timeline.total shown /\
  (omap sum_confidence listed = [] -> Timeline.avg_confidence shown = 0%Q) /\
  (omap sum_confidence listed <> [] ->
   (inject_Z lo <= Timeline.avg_confidence shown)%Q /\
   (Timeline.avg_confidence shown <= inject_Z hi)%Q).
Proof.
  intros Hall shown. split; [reflexivity|]. split.
  - apply disjoint_filters_length. intros c Hyes Hno.
    rewrite Hyes in Hno. discriminate.
  - unfold shown, Timeline.update_timeline_stats.
    cbn [Timeline.avg_confidence].
    assert (Hin : forall z, z ∈ omap sum_confidence listed ->
                            (lo <= z <= hi)%Z).
    { intros z Hz. apply list_elem_of_omap in Hz as (c & Hc & Hz).
      exact (Hall c z Hc Hz). }
    destruct (omap sum_confidence listed) as [|z zs] eqn:Hconf.
    + split; [reflexivity|]. intros Hne. contradiction.
    + split; [discriminate|]. intros _.
      apply (mean_between lo hi (z :: zs)); [discriminate|exact Hin].
Qed.

Lemma update_timeline_stats_bounds_witness :
  let shown :=
    Timeline.update_timeline_stats (get_recent_charts three_charts 10) in
  Timeline.total shown = length (get_recent_charts three_charts 10) /\
  Timeline.yes_count shown + Timeline.no_count shown <= Timeline.total shown /\
  (omap sum_confidence (get_recent_charts three_charts 10) = [] ->
   Timeline.avg_confidence shown = 0%Q) /\
  (omap sum_confidence (get_recent_charts three_charts 10) <> [] ->
   (inject_Z 0 <= Timeline.avg_confidence shown)%Q /\
   (Timeline.avg_confidence shown <= inject_Z 100)%Q).
Proof.
  apply (update_timeline_stats_bounds (get_recent_charts three_charts 10)
           0 100).
  intros c z Hc. vm_compute in Hc.
  repeat (apply elem_of_cons in Hc as [->|Hc];
          [intros [= <-]; lia|]).
  apply elem_of_nil in Hc. contradiction.
Defined.

(** * The calculation worker *)

Section WorkerFacts.

Variable strip : string -> string.

(** X25: one outcome, at the end.  Whatever the engine and the inputs,
    [calculate_chart] emits one signal that is not a progress message, as
    its last signal: either [calculation_finished] or
    [calculation_error], never both and never neither. *)
Theorem calculate_chart_one_outcome
    (engine : option (string -> Worker.settings -> Worker.engine_reply))
    (engine_error question : string) (s : Worker.settings) :
  exists reports outcome,
    Worker.calculate_chart strip engine engine_error question s =
      reports ++ [outcome] /\
    Forall (fun r => is_progress r = true) reports /\
    is_progress outcome = false /\
    reports <> [].
Proof.
  unfold Worker.calculate_chart, Worker.failed.
  destruct engine as [judge|].
  - destruct (bool_decide (strip question = EmptyString)).
    { exists [Worker.calculation_progress "Initializing calculation...";
              Worker.calculation_progress "Validating inputs..."].
      eexists. split; [reflexivity|]. repeat constructor. discriminate. }
    destruct (bool_decide (strip _ = EmptyString)).
    { exists [Worker.calculation_progress "Initializing calculation...";
              Worker.calculation_progress "Validating inputs..."].
      eexists. split; [reflexivity|]. repeat constructor. discriminate. }
    destruct (judge question s) as [message| |res].
    + exists [Worker.calculation_progress "Initializing calculation...";
              Worker.calculation_progress "Validating inputs...";
              Worker.calculation_progress "Calculating chart..."].
      eexists. split; [reflexivity|]. repeat constructor. discriminate.
    + exists [Worker.calculation_progress "Initializing calculation...";
              Worker.calculation_progress "Validating inputs...";
              Worker.calculation_progress "Calculating chart...";
              Worker.calculation_progress "Processing results..."].
      eexists. split; [reflexivity|]. repeat constructor. discriminate.
    + destruct (judgment res).
      * exists [Worker.calculation_progress "Initializing calculation...";
                Worker.calculation_progress "Validating inputs...";
                Worker.calculation_progress "Calculating chart...";
                Worker.calculation_progress "Processing results...";
                Worker.calculation_progress "Calculation complete!"].
        eexists. split; [reflexivity|]. repeat constructor. discriminate.
      * exists [Worker.calculation_progress "Initializing calculation...";
                Worker.calculation_progress "Validating inputs...";
                Worker.calculation_progress "Calculating chart...";
                Worker.calculation_progress "Processing results..."].
        eexists. split; [reflexivity|]. repeat constructor. discriminate.
  - exists [Worker.calculation_progress "Initializing calculation..."].
    eexists. split; [reflexivity|]. repeat constructor. discriminate.
Qed.

(** X26: what a finished calculation went through.  A result reaches
    [calculation_finished] only if there is an engine, the question and the
    location are not blank after [strip], the engine returned that very
    result for that question and those settings, and the result has a
    ['judgment']. *)
Theorem calculation_finished_was_checked
    (engine : option (string -> Worker.settings -> Worker.engine_reply))
    (engine_error question : string) (s : Worker.settings) (res : result) :
  Worker.calculation_finished res
    ∈ Worker.calculate_chart strip engine engine_error question s ->
  strip question <> EmptyString /\
  strip (default EmptyString (Worker.settings_location s)) <> EmptyString /\
  is_Some (judgment res) /\
  exists judge, engine = Some judge /\ judge question s = Worker.Returned res.
Proof.
  unfold Worker.calculate_chart, Worker.failed. intros Hin.
  assert (Hno : forall (l : list Worker.signal),
            Worker.calculation_finished res ∈ l ->
            Forall (fun r => forall res', r <> Worker.calculation_finished res')
                   l -> False).
  { intros l Hl Hall. rewrite Forall_forall in Hall.
    exact (Hall _ Hl res eq_refl). }
  destruct engine as [judge|];
    [|exfalso; apply (Hno _ Hin); repeat constructor; discriminate].
  destruct (bool_decide_reflect (strip question = EmptyString)) as [|Hq];
    [exfalso; apply (Hno _ Hin); repeat constructor; discriminate|].
  destruct (bool_decide_reflect
              (strip (default EmptyString (Worker.settings_location s))
               = EmptyString)) as [|Hloc];
    [exfalso; apply (Hno _ Hin); repeat constructor; discriminate|].
  destruct (judge question s) as [message| |res'] eqn:Hjudge;
    [exfalso; apply (Hno _ Hin); repeat constructor; discriminate..|].
  destruct (judgment res') as [j|] eqn:Hj;
    [|exfalso; apply (Hno _ Hin); repeat constructor; discriminate].
  assert (res' = res) as <-.
  { repeat (apply elem_of_cons in Hin as [Heq|Hin]; [discriminate Heq|]).
    apply list_elem_of_singleton in Hin. injection Hin as <-. reflexivity. }
  split; [exact Hq|]. split; [exact Hloc|]. split; [rewrite Hj; eexists;
    reflexivity|].
  exists judge. split; [reflexivity|exact Hjudge].
Qed.

End WorkerFacts.

Lemma calculation_finished_was_checked_witness :
  Worker.calculation_finished yes_82
    ∈ Worker.calculate_chart as_is (Some always_yes) EmptyString
        "Will I get the job?" in_london /\
  as_is "Will I get the job?" <> EmptyString /\
  as_is (default EmptyString (Worker.settings_location in_london))
    <> EmptyString /\
  is_Some (judgment yes_82) /\
  exists judge, Some always_yes = Some judge /\
                judge "Will I get the job?" in_london = Worker.Returned yes_82.
Proof.
  assert (Hin : Worker.calculation_finished yes_82
                  ∈ Worker.calculate_chart as_is (Some always_yes) EmptyString
                      "Will I get the job?" in_london).
  { vm_compute. do 5 right. left. }
  split; [exact Hin|].
  apply (calculation_finished_was_checked as_is (Some always_yes) EmptyString
           "Will I get the job?" in_london yes_82 Hin).
Defined.

(** * The aspects tab *)

Import AspectsTab.

(** X27: the two halves of the list.  Every aspect is listed by exactly one
    of the filters on applying and on separating aspects; [draw_aspects] on
    the whole list paints what it paints on those the first filter lists,
    and paints nothing on those the second one lists. *)
Theorem filter_aspects_list_splits (listed : list aspect_entry)
    (radius : Q) (planets : list (string * planet_data)) :
  filter_aspects_list "Applying Only" listed
    ++ filter_aspects_list "Separating Only" listed ≡ₚ listed /\
  (forall a, a ∈ filter_aspects_list "Applying Only" listed ->
             a ∈ filter_aspects_list "Separating Only" listed -> False) /\
  draw_aspects radius (on_wheel <$> listed) planets =
  draw_aspects radius
    (on_wheel <$> filter_aspects_list "Applying Only" listed) planets /\
  draw_aspects radius
    (on_wheel <$> filter_aspects_list "Separating Only" listed) planets =
  emit [].
Proof.
  unfold filter_aspects_list. simpl.
  split; [|split; [|split]].
  - induction listed as [|a l IH]; [reflexivity|].
    rewrite !filter_cons.
    destruct (decide (default false (applying (on_wheel a)) = true))
      as [Ha|Ha];
      destruct (decide (default false (applying (on_wheel a)) = false))
      as [Hs|Hs].
    + rewrite Ha in Hs. discriminate.
    + simpl. f_equiv. exact IH.
    + rewrite <- Permutation_middle. f_equiv. exact IH.
    + destruct (default false (applying (on_wheel a))); contradiction.
  - intros a Ha Hs. apply list_elem_of_filter in Ha as [Ha _].
    apply list_elem_of_filter in Hs as [Hs _]. rewrite Ha in Hs.
    discriminate.
  - unfold draw_aspects. induction listed as [|a l IH]; [reflexivity|].
    rewrite filter_cons, fmap_cons. cbn [for_each].
    destruct (decide (default false (applying (on_wheel a)) = true))
      as [Ha|Ha].
    + rewrite fmap_cons. cbn [for_each]. rewrite IH. reflexivity.
    + rewrite draw_aspect_separating, emit_nil_and_then; [exact IH|].
      intros Happ. rewrite Happ in Ha. apply Ha. reflexivity.
  - unfold draw_aspects. induction listed as [|a l IH]; [reflexivity|].
    rewrite filter_cons.
    destruct (decide (default false (applying (on_wheel a)) = false))
      as [Hs|Hs]; [|exact IH].
    rewrite fmap_cons. cbn [for_each].
    rewrite draw_aspect_separating, emit_nil_and_then; [exact IH|].
    intros Happ. rewrite Happ in Hs. discriminate.
Qed.

Lemma less_than_one_very_strong (d : Q) :
  (if less_than d 1 then "Very Strong"
   else if less_than d 3 then "Strong"
   else if less_than d 6 then "Moderate"
   else "Weak") = "Very Strong" <-> less_than d 1 = true.
Proof.
  destruct (less_than d 1); [split; reflexivity|].
  destruct (less_than d 3), (less_than d 6); split; discriminate.
Qed.

(** X28: exact and very strong.  Among the listed aspects the filter on
    exact aspects lists those that the significance column calls very
    strong and that carry ['degrees_to_exact']; an aspect without the key
    is called very strong by the column (default 0) and left out by the
    filter (default 10). *)
Theorem exact_aspects_are_the_very_strong (listed : list aspect_entry)
    (a : aspect_entry) :
  a ∈ listed ->
  (a ∈ filter_aspects_list "Exact Aspects" listed <->
   significance a = "Very Strong" /\ is_Some (degrees_to_exact a)) /\
  (degrees_to_exact a = None ->
   significance a = "Very Strong" /\
   a ∉ filter_aspects_list "Exact Aspects" listed).
Proof.
  intros Hin.
  assert (Hiff : a ∈ filter_aspects_list "Exact Aspects" listed <->
                 significance a = "Very Strong" /\
                 is_Some (degrees_to_exact a)).
  { unfold filter_aspects_list. simpl. rewrite list_elem_of_filter.
    unfold significance. rewrite less_than_one_very_strong.
    destruct (degrees_to_exact a) as [d|]; simpl.
    - split.
      + intros [Hd _]. split; [exact Hd|]. eexists. reflexivity.
      + intros [Hd _]. split; [exact Hd|exact Hin].
    - split.
      + intros [Hd _]. vm_compute in Hd. discriminate.
      + intros [_ [d Hd]]. discriminate. }
  split; [exact Hiff|]. intros Hnone. split.
  - unfold significance. rewrite Hnone. reflexivity.
  - rewrite Hiff, Hnone. intros [_ [d Hd]]. discriminate.
Qed.

Lemma exact_aspects_are_the_very_strong_witness :
  let a := {| on_wheel := applying_square; degrees_to_exact := None |} in
  a ∈ listed_aspects /\
  (a ∈ filter_aspects_list "Exact Aspects" listed_aspects <->
   significance a = "Very Strong" /\ is_Some (degrees_to_exact a)) /\
  (degrees_to_exact a = None ->
   significance a = "Very Strong" /\
   a ∉ filter_aspects_list "Exact Aspects" listed_aspects).
Proof.
  intros a.
  assert (Hin : a ∈ listed_aspects) by (right; right; left).
  split; [exact Hin|].
  exact (exact_aspects_are_the_very_strong listed_aspects a Hin).
Defined.
